(** * Quota ledger, real-time messaging and presence of the chat backend

    A shallow embedding of
    - [src/controllers/usage.controller.js]  (call start/stop accounting),
    - [src/controllers/chat.controller.js]   (HTTP send-message handler),
    - [src/sockets/chat.namespace.js]        (socket chat namespace),
    - [src/sockets/presence.namespace.js]    (global presence namespace),
    together with the properties of the specification that concern them.

    Asynchronous handlers are functions in a state-and-exception monad over
    a [World] that holds the two Mongo collections, the process-wide maps of
    the chat namespace, the pending [setTimeout] callbacks and the events
    emitted so far.  A Mongoose [Number] is a rational ([Q]): the plan
    endpoints keep any finite number that is not negative, whole or not.
    Instants and counts of events are integers ([Z]); a field that may be
    [null] or [undefined] is an [option]. *)

From Stdlib Require Import ZArith QArith Qround Qminmax Lqa String Ascii List Bool Lia.
From stdpp Require Import gmap strings list.

Open Scope string_scope.
Open Scope Z_scope.

(** ** JavaScript coercions used by the handlers *)

(** [x ?? 0] and [x || 0] on a field holding a number, [null] or
    [undefined]: both yield the number, or [0] when there is none. *)
Definition num0 (x : option Q) : Q :=
  match x with
  | Some v => v
  | None => 0%Q
  end.

(** Truthiness of such a field, as in [limit ? a : b]. *)
Definition truthy (x : option Q) : bool :=
  match x with
  | Some v => negb (Qeq_bool v 0)
  | None => false
  end.

(** [String.prototype.trim].  A text is a sequence of code units below 256;
    the white space and line terminators of ECMAScript in that range are
    U+0009 to U+000D, U+0020 and U+00A0. *)
Definition is_space (c : ascii) : bool :=
  let n := nat_of_ascii c in
  ((n =? 32) || (n =? 9) || (n =? 10) || (n =? 11) || (n =? 12) || (n =? 13)
   || (n =? 160))%nat.

Fixpoint trim_left (s : string) : string :=
  match s with
  | String c s' => if is_space c then trim_left s' else s
  | EmptyString => EmptyString
  end.

Fixpoint trim_right (s : string) : string :=
  match s with
  | String c s' =>
      match trim_right s' with
      | EmptyString => if is_space c then EmptyString else String c EmptyString
      | r => String c r
      end
  | EmptyString => EmptyString
  end.

Definition trim (s : string) : string := trim_right (trim_left s).

(** [!message?.trim()] *)
Definition blank (m : option string) : bool :=
  match m with
  | Some s => String.eqb (trim s) ""
  | None => true
  end.

(** ** Data model *)

(** A document of the [Subscription] collection as it is stored
    ([src/models/Subscription.js]).  The last three fields are paths the
    socket path reads and writes but the schemas of [src/models] do not
    declare: two daily fields of the document and [limits.messagesPerDay] of
    the plan that [populate('planId')] attaches. *)
Record Subscription := mkSubscription {
  sub_id : string;
  userId : string;
  endDate : Z;                       (* milliseconds since the epoch *)
  messagesUsedTotal : option Q;
  messagesAllowed : option Q;
  audioTimeUsedTotal : option Q;
  videoTimeUsedTotal : option Q;
  audioTimeAllowed : option Q;
  videoTimeAllowed : option Q;
  totalMessagesUsed : option Q;
  totalAudioUsed : option Q;
  totalVideoUsed : option Q;
  messagesUsedToday : option Q;
  lastMessageDate : option Z;        (* the UTC day, [toISOString().split('T')[0]] *)
  messagesPerDay : option Q          (* planId?.limits?.messagesPerDay *)
}.

(** An element of [chat.messages]. *)
Record Message := mkMessage {
  m_from : string;
  m_to : string;
  m_text : string;
  petitionId : string;
  createdAt : Z;
  status : option string
}.

(** A document of the [Chat] collection. *)
Record Chat := mkChat {
  chat_id : nat;
  c_from : string;
  c_to : string;
  messages : list Message
}.

(** Where an event is emitted to. *)
Inductive Target :=
| ToSocket (socketId : string)          (* socket.emit *)
| ToRoom (room : string)                (* nsp.to(room).emit *)
| RoomExcept (room socketId : string)   (* socket.to(room).emit *)
| Broadcast (socketId : string)         (* socket.broadcast.emit *)
| ToAll.                                (* namespace.emit *)

(** A message text; the daily-limit text embeds the limit. *)
Inductive Text :=
| Plain (s : string)
| DailyLimit (maxMessages : Q).

Inductive Payload :=
| PError (type : string) (message : option Text)
| PMessage (id from to text : string) (tempId : option string)
    (remainingMessages : option (option Q))
| PDelivered (messageId : string)
| PRead (readBy : string) (messageIds : list string) (readAt : Z)
| PPresence (user : string) (lastSeen : Z)
| POnlineList (users : list string).

Record Emit := mkEmit {
  target : Target;
  event : string;
  payload : Payload
}.

(** What a handler does to the outside, in the order it does it: the
    storage operations that completed and the events it emitted. *)
Inductive Effect :=
| Emitted (e : Emit)
| SubFind (user : string)
| SubWrite (id : string)
| ChatFind (a b : string)
| ChatCreate (id : nat)
| ChatWrite (id : nat)
| ChatUpdateMany.

(** A callback registered with [setTimeout]. *)
Inductive TimerAction :=
| TDelivered (tgt : Target) (messageId : string)
| TRemoveUser (user : string).

Record Timer := mkTimer {
  due : Z;
  action : TimerAction
}.

(** An entry of the chat namespace's [onlineUsers] map. *)
Record OnlineEntry := mkOnlineEntry {
  socketId : string;
  userName : string;
  lastSeen : Z;
  isOnline : bool
}.

(** Storage operations that can reject. *)
Record Faults := mkFaults {
  subFindFails : bool;
  subSaveFails : bool;
  chatFindFails : bool;
  chatCreateFails : bool;
  chatSaveFails : bool;
  chatUpdateFails : bool
}.

Definition noFaults : Faults := mkFaults false false false false false false.

Record World := mkWorld {
  BYPASS_SUBSCRIPTION_CHECKS : option string;  (* process.env *)
  schemaStrict : bool;     (* the schemas are those of src/models, see [hydrate] *)
  io : bool;               (* setSocketIO was called *)
  clock : Z;               (* what [new Date()] reads *)
  faults : Faults;
  subscriptions : list Subscription;
  chats : list Chat;
  onlineUsers : gmap string OnlineEntry;
  userRooms : gmap string (gset string);
  timers : list Timer;
  trace : list Effect      (* effects so far, oldest first *)
}.

Definition with_subscriptions (f : list Subscription -> list Subscription) (w : World) : World :=
  mkWorld (BYPASS_SUBSCRIPTION_CHECKS w) (schemaStrict w) (io w) (clock w) (faults w)
    (f (subscriptions w)) (chats w) (onlineUsers w) (userRooms w) (timers w) (trace w).

Definition with_chats (f : list Chat -> list Chat) (w : World) : World :=
  mkWorld (BYPASS_SUBSCRIPTION_CHECKS w) (schemaStrict w) (io w) (clock w) (faults w)
    (subscriptions w) (f (chats w)) (onlineUsers w) (userRooms w) (timers w) (trace w).

Definition with_onlineUsers (f : gmap string OnlineEntry -> gmap string OnlineEntry)
    (w : World) : World :=
  mkWorld (BYPASS_SUBSCRIPTION_CHECKS w) (schemaStrict w) (io w) (clock w) (faults w)
    (subscriptions w) (chats w) (f (onlineUsers w)) (userRooms w) (timers w) (trace w).

Definition with_userRooms (f : gmap string (gset string) -> gmap string (gset string))
    (w : World) : World :=
  mkWorld (BYPASS_SUBSCRIPTION_CHECKS w) (schemaStrict w) (io w) (clock w) (faults w)
    (subscriptions w) (chats w) (onlineUsers w) (f (userRooms w)) (timers w) (trace w).

Definition with_timers (f : list Timer -> list Timer) (w : World) : World :=
  mkWorld (BYPASS_SUBSCRIPTION_CHECKS w) (schemaStrict w) (io w) (clock w) (faults w)
    (subscriptions w) (chats w) (onlineUsers w) (userRooms w) (f (timers w)) (trace w).

Definition with_trace (f : list Effect -> list Effect) (w : World) : World :=
  mkWorld (BYPASS_SUBSCRIPTION_CHECKS w) (schemaStrict w) (io w) (clock w) (faults w)
    (subscriptions w) (chats w) (onlineUsers w) (userRooms w) (timers w) (f (trace w)).

(** ** The handler monad: state plus exceptions *)

Inductive Res (A : Type) :=
| Ok (a : A)
| Throw.
Arguments Ok {A} a.
Arguments Throw {A}.

Definition M (A : Type) : Type := World -> Res A * World.

Definition ret {A} (a : A) : M A := fun w => (Ok a, w).

Definition bind {A B} (m : M A) (k : A -> M B) : M B :=
  fun w =>
    match m w with
    | (Ok a, w') => k a w'
    | (Throw, w') => (Throw, w')
    end.

Definition throw {A} : M A := fun w => (Throw, w).

(** [try { m } catch (e) { h }]: what [m] changed before it threw stays. *)
Definition try_catch {A} (m : M A) (h : M A) : M A :=
  fun w =>
    match m w with
    | (Ok a, w') => (Ok a, w')
    | (Throw, w') => h w'
    end.

Definition gets {A} (f : World -> A) : M A := fun w => (Ok (f w), w).

Definition modify (f : World -> World) : M unit := fun w => (Ok tt, f w).

Notation "x <- m ;; k" := (bind m (fun x => k))
  (at level 100, m at next level, right associativity).
Notation "m ;;; k" := (bind m (fun _ => k))
  (at level 100, right associativity).

Definition guard_fault (f : Faults -> bool) : M unit :=
  fun w => if f (faults w) then (Throw, w) else (Ok tt, w).

Definition new_Date : M Z := gets clock.

(** [process.env.BYPASS_SUBSCRIPTION_CHECKS === 'true'] *)
Definition bypass_on (w : World) : bool :=
  match BYPASS_SUBSCRIPTION_CHECKS w with
  | Some v => String.eqb v "true"
  | None => false
  end.

Definition log (e : Effect) : M unit :=
  modify (with_trace (fun l => (l ++ [e])%list)).

Definition emit (t : Target) (ev : string) (p : Payload) : M unit :=
  log (Emitted (mkEmit t ev p)).

Definition setTimeout (a : TimerAction) (delay : Z) : M unit :=
  fun w => (Ok tt, with_timers (fun ts => (ts ++ [mkTimer (clock w + delay) a])%list) w).

(** ** The Subscription collection *)

Definition owned_by (uid : string) (s : Subscription) : bool :=
  String.eqb (userId s) uid.

(** What a handler reads on a document it loaded.  Under the schemas of
    [src/models] ([schemaStrict]) neither [messagesUsedToday] and
    [lastMessageDate] of a subscription nor [limits.messagesPerDay] of its
    plan are declared: whatever the collection holds, the three read as
    [undefined].  Without [schemaStrict] the schemas are taken to declare
    them, as the daily limit of the socket path supposes. *)
Definition hydrate (strict : bool) (s : Subscription) : Subscription :=
  if strict then
    mkSubscription (sub_id s) (userId s) (endDate s)
      (messagesUsedTotal s) (messagesAllowed s)
      (audioTimeUsedTotal s) (videoTimeUsedTotal s)
      (audioTimeAllowed s) (videoTimeAllowed s)
      (totalMessagesUsed s) (totalAudioUsed s) (totalVideoUsed s)
      None None None
  else s.

(** [Subscription.findOne({ userId })]: the first document of the user. *)
Definition Subscription_findOne (uid : string) : M (option Subscription) :=
  guard_fault subFindFails ;;;
  log (SubFind uid) ;;;
  gets (fun w =>
          option_map (hydrate (schemaStrict w))
            (List.find (owned_by uid) (subscriptions w))).

(** [Subscription.findOne({ userId, endDate: { $gt: now } })] *)
Definition Subscription_findOne_active (uid : string) (now : Z) : M (option Subscription) :=
  guard_fault subFindFails ;;;
  log (SubFind uid) ;;;
  gets (fun w =>
          option_map (hydrate (schemaStrict w))
            (List.find (fun s => owned_by uid s && (now <? endDate s)) (subscriptions w))).

Fixpoint update_first {A} (p : A -> bool) (f : A -> A) (l : list A) : list A :=
  match l with
  | [] => []
  | x :: r => if p x then f x :: r else x :: update_first p f r
  end.

(** [$inc] on a numeric field; a missing field starts from zero. *)
Definition inc (field : option Q) (n : Z) : option Q := Some (num0 field + inject_Z n)%Q.

Definition inc_audio (n : Z) (s : Subscription) : Subscription :=
  mkSubscription (sub_id s) (userId s) (endDate s)
    (messagesUsedTotal s) (messagesAllowed s)
    (inc (audioTimeUsedTotal s) n) (videoTimeUsedTotal s)
    (audioTimeAllowed s) (videoTimeAllowed s)
    (totalMessagesUsed s) (inc (totalAudioUsed s) n) (totalVideoUsed s)
    (messagesUsedToday s) (lastMessageDate s) (messagesPerDay s).

Definition inc_video (n : Z) (s : Subscription) : Subscription :=
  mkSubscription (sub_id s) (userId s) (endDate s)
    (messagesUsedTotal s) (messagesAllowed s)
    (audioTimeUsedTotal s) (inc (videoTimeUsedTotal s) n)
    (audioTimeAllowed s) (videoTimeAllowed s)
    (totalMessagesUsed s) (totalAudioUsed s) (inc (totalVideoUsed s) n)
    (messagesUsedToday s) (lastMessageDate s) (messagesPerDay s).

(** [Subscription.findOneAndUpdate({ userId }, { $inc: incField }, { new: true })] *)
Definition Subscription_findOneAndUpdate (uid : string) (upd : Subscription -> Subscription)
    : M (option Subscription) :=
  guard_fault subSaveFails ;;;
  found <- gets (fun w => List.find (owned_by uid) (subscriptions w)) ;;
  match found with
  | Some s =>
      modify (with_subscriptions (update_first (owned_by uid) upd)) ;;;
      log (SubWrite (sub_id s)) ;;;
      strict <- gets schemaStrict ;;
      ret (Some (hydrate strict (upd s)))
  | None => ret None
  end.

(** What [subscription.save()] writes: the paths the handler assigned, on the
    stored document with the same [_id]; the other paths keep what is stored.
    The daily paths are not declared by the schema: under [schemaStrict] they
    are dropped. *)
Definition write_totals (strict : bool) (loaded : Subscription) (s : Subscription)
    : Subscription :=
  mkSubscription (sub_id s) (userId s) (endDate s)
    (messagesUsedTotal loaded) (messagesAllowed s)
    (audioTimeUsedTotal s) (videoTimeUsedTotal s)
    (audioTimeAllowed s) (videoTimeAllowed s)
    (totalMessagesUsed loaded) (totalAudioUsed s) (totalVideoUsed s)
    (messagesUsedToday s) (lastMessageDate s) (messagesPerDay s).

Definition write_totals_today (strict : bool) (loaded : Subscription) (s : Subscription)
    : Subscription :=
  mkSubscription (sub_id s) (userId s) (endDate s)
    (messagesUsedTotal loaded) (messagesAllowed s)
    (audioTimeUsedTotal s) (videoTimeUsedTotal s)
    (audioTimeAllowed s) (videoTimeAllowed s)
    (totalMessagesUsed loaded) (totalAudioUsed s) (totalVideoUsed s)
    (if strict then messagesUsedToday s else messagesUsedToday loaded)
    (lastMessageDate s) (messagesPerDay s).

Definition write_daily (strict : bool) (loaded : Subscription) (s : Subscription)
    : Subscription :=
  mkSubscription (sub_id s) (userId s) (endDate s)
    (messagesUsedTotal s) (messagesAllowed s)
    (audioTimeUsedTotal s) (videoTimeUsedTotal s)
    (audioTimeAllowed s) (videoTimeAllowed s)
    (totalMessagesUsed s) (totalAudioUsed s) (totalVideoUsed s)
    (if strict then messagesUsedToday s else messagesUsedToday loaded)
    (if strict then lastMessageDate s else lastMessageDate loaded)
    (messagesPerDay s).

Definition same_sub (a b : Subscription) : bool := String.eqb (sub_id a) (sub_id b).

Definition Subscription_save (write : bool -> Subscription -> Subscription -> Subscription)
    (loaded : Subscription) : M unit :=
  guard_fault subSaveFails ;;;
  modify (fun w =>
            with_subscriptions
              (update_first (same_sub loaded) (write (schemaStrict w) loaded)) w) ;;;
  log (SubWrite (sub_id loaded)).

(** The in-memory document after the handler assigned its usage fields. *)
Definition set_messagesUsedTotal (v : Q) (s : Subscription) : Subscription :=
  mkSubscription (sub_id s) (userId s) (endDate s)
    (Some v) (messagesAllowed s)
    (audioTimeUsedTotal s) (videoTimeUsedTotal s)
    (audioTimeAllowed s) (videoTimeAllowed s)
    (Some v) (totalAudioUsed s) (totalVideoUsed s)
    (messagesUsedToday s) (lastMessageDate s) (messagesPerDay s).

Definition set_daily (used : option Q) (day : option Z) (s : Subscription) : Subscription :=
  mkSubscription (sub_id s) (userId s) (endDate s)
    (messagesUsedTotal s) (messagesAllowed s)
    (audioTimeUsedTotal s) (videoTimeUsedTotal s)
    (audioTimeAllowed s) (videoTimeAllowed s)
    (totalMessagesUsed s) (totalAudioUsed s) (totalVideoUsed s)
    used day (messagesPerDay s).

(** ** HTTP responses *)

Inductive Body :=
| BFail (message : string) (code : option string)
| BLimit (allowed : option Q) (used remaining : Q)
| BSent (petition sentMessage : string) (usedTotal : option Q)
    (remainingMessages : option Q) (deliveryStatus : string)
| BCallDenied (code : string)
| BCallOk (remainingSec : Q)
| BOk.

Inductive Response :=
| Json (code : Z) (body : Body).

(** ** usage.controller.js *)

(** [getActiveSubscription] *)
Definition getActiveSubscription (uid : string) : M (option Subscription) :=
  now <- new_Date ;;
  Subscription_findOne_active uid now.

Inductive QuotaCheck :=
| QuotaDenied (code : string)
| QuotaOk (remaining : Q) (sub : Subscription).

(** [ensureCallQuota] *)
Definition ensureCallQuota (uid : string) (type : string) : M QuotaCheck :=
  found <- getActiveSubscription uid ;;
  match found with
  | None => ret (QuotaDenied "NO_SUBSCRIPTION")
  | Some sub =>
      let allowed :=
        if String.eqb type "audio" then num0 (audioTimeAllowed sub)
        else num0 (videoTimeAllowed sub) in
      let used :=
        if String.eqb type "audio" then num0 (audioTimeUsedTotal sub)
        else num0 (videoTimeUsedTotal sub) in
      let remaining := Qmax 0 (allowed - used) in
      if Qle_bool remaining 0 then
        ret (QuotaDenied
               (if String.eqb type "audio" then "AUDIO_LIMIT_REACHED"
                else "VIDEO_LIMIT_REACHED"))
      else ret (QuotaOk remaining sub)
  end.

(** [!type || !["audio", "video"].includes(type)] *)
Definition invalid_call_type (type : option string) : bool :=
  match type with
  | Some t => negb (String.eqb t "audio" || String.eqb t "video")
  | None => true
  end.

(** [POST /api/usage/call/start] *)
Definition startCallUsage (uid : string) (type : option string) : M Response :=
  try_catch
    (match type with
     | Some t =>
         if invalid_call_type type then ret (Json 400 (BFail "Invalid call type" None))
         else
           check <- ensureCallQuota uid t ;;
           match check with
           | QuotaDenied code => ret (Json 403 (BCallDenied code))
           | QuotaOk remaining _ => ret (Json 200 (BCallOk remaining))
           end
     | None => ret (Json 400 (BFail "Invalid call type" None))
     end)
    (ret (Json 500 (BFail "Server error" None))).

(** [Math.max(0, Math.floor(Number(elapsedSec || 0)))] *)
Definition elapsed_secs (elapsedSec : option Q) : Z :=
  Z.max 0 (Qfloor (match elapsedSec with Some q => q | None => 0%Q end)).

(** [POST /api/usage/call/stop] *)
Definition stopCallUsage (uid : string) (type : option string) (elapsedSec : option Q)
    : M Response :=
  try_catch
    (match type with
     | Some t =>
         if invalid_call_type type then ret (Json 400 (BFail "Invalid call type" None))
         else
           let secs := elapsed_secs elapsedSec in
           (if 0 <? secs then
              Subscription_findOneAndUpdate uid
                (if String.eqb t "audio" then inc_audio secs else inc_video secs) ;;;
              ret tt
            else ret tt) ;;;
           ret (Json 200 BOk)
     | None => ret (Json 400 (BFail "Invalid call type" None))
     end)
    (ret (Json 500 (BFail "Server error" None))).

(** ** The Chat collection *)

(** [{ $or: [{ from, to }, { from: to, to: from }] }] *)
Definition between (a b : string) (c : Chat) : bool :=
  (String.eqb (c_from c) a && String.eqb (c_to c) b)
  || (String.eqb (c_from c) b && String.eqb (c_to c) a).

Definition Chat_findOne (a b : string) : M (option Chat) :=
  guard_fault chatFindFails ;;;
  log (ChatFind a b) ;;;
  gets (fun w => List.find (between a b) (chats w)).

Definition fresh_chat_id (l : list Chat) : nat :=
  S (fold_right Nat.max 0%nat (map chat_id l)).

(** [Chat.create({ from, to, messages: [] })] *)
Definition Chat_create (a b : string) : M Chat :=
  guard_fault chatCreateFails ;;;
  c <- gets (fun w => mkChat (fresh_chat_id (chats w)) a b []) ;;
  modify (with_chats (fun l => (l ++ [c])%list)) ;;;
  log (ChatCreate (chat_id c)) ;;;
  ret c.

Definition push_message (m : Message) (c : Chat) : Chat :=
  mkChat (chat_id c) (c_from c) (c_to c) (messages c ++ [m])%list.

(** A pushed element is cast to [messageSchema], which declares no [status]
    path: under the schemas of [src/models] the status is dropped. *)
Definition cast_message (strict : bool) (m : Message) : Message :=
  if strict
  then mkMessage (m_from m) (m_to m) (m_text m) (petitionId m) (createdAt m) None
  else m.

(** [chat.messages.push(m); await chat.save()] *)
Definition Chat_push_save (c : Chat) (m : Message) : M unit :=
  guard_fault chatSaveFails ;;;
  modify (fun w =>
            with_chats
              (update_first (fun d => Nat.eqb (chat_id d) (chat_id c))
                 (push_message (cast_message (schemaStrict w) m))) w) ;;;
  log (ChatWrite (chat_id c)).

(** ** Room ids *)

(** [Array.prototype.sort] without a comparator, on strings: a stable sort
    by code-unit order. *)
Fixpoint sort_insert (x : string) (l : list string) : list string :=
  match l with
  | [] => [x]
  | y :: r => if String.ltb y x then y :: sort_insert x r else x :: l
  end.

Definition sort (l : list string) : list string := fold_right sort_insert [] l.

(** [generateRoomId] *)
Definition generateRoomId (userId1 userId2 : string) : string :=
  let sortedIds := sort [userId1; userId2] in
  "chat_" +:+ nth 0 sortedIds "undefined" +:+ "_" +:+ nth 1 sortedIds "undefined".

(** ** chat.controller.js *)

Module Http.

(** [validateBothUsersSubscription] of the controller *)
Definition validateBothUsersSubscription (userId1 userId2 : string)
    : M (bool * option string) :=
  try_catch
    (bypass <- gets bypass_on ;;
     if bypass then ret (true, Some "Bypassed (dev mode)")
     else
       user1Sub <- Subscription_findOne userId1 ;;
       user2Sub <- Subscription_findOne userId2 ;;
       match user1Sub, user2Sub with
       | Some s1, Some s2 =>
           now <- new_Date ;;
           if (endDate s1 <? now) || (endDate s2 <? now)
           then ret (false, Some "One or both subscriptions have expired")
           else ret (true, None)
       | _, _ => ret (false, Some "Both users must have active subscriptions to chat")
       end)
    (ret (false, Some "Failed to validate subscriptions")).

(** [messagesAllowed != null ? Math.max(0, messagesAllowed - messagesUsed) : null] *)
Definition remaining_of (subscription : Subscription) : option Q :=
  match messagesAllowed subscription with
  | Some allowed => Some (Qmax 0 (allowed - num0 (messagesUsedTotal subscription)))
  | None => None
  end.

(** [remainingMessages !== null && remainingMessages <= 0] *)
Definition exhausted (remainingMessages : option Q) : bool :=
  match remainingMessages with
  | Some r => Qle_bool r 0
  | None => false
  end.

(** Step 7 of the handler: the Socket.IO notifications. *)
Definition notify (from to petition text : string) : M unit :=
  let messageObj := PMessage petition from to text None None in
  receiverOnline <- gets (fun w => onlineUsers w !! to) ;;
  (match receiverOnline with
   | Some _ =>
       emit (ToRoom ("user_" +:+ to)) "new_message" messageObj ;;;
       setTimeout (TDelivered (ToRoom ("user_" +:+ from)) petition) 100
   | None => ret tt
   end) ;;;
  emit (ToRoom (generateRoomId from to)) "new_message" messageObj.

(** [sendMessage]: [POST] handler; [uuid] is what [uuidv4()] returned. *)
Definition sendMessage (from : string) (to message : option string) (uuid : string)
    : M Response :=
  try_catch
    (match to with
     | None => ret (Json 400 (BFail "Recipient (to) is required" None))
     | Some to =>
     if String.eqb to "" then ret (Json 400 (BFail "Recipient (to) is required" None))
     else if blank message then ret (Json 400 (BFail "Message text is required" None))
     else
       let text := trim (default "" message) in
       bothUsersValid <- validateBothUsersSubscription from to ;;
       if negb (fst bothUsersValid)
       then ret (Json 403 (BFail (default "" (snd bothUsersValid))
                                 (Some "SUBSCRIPTION_REQUIRED")))
       else
       let petition := "MSG" +:+ substring 0 5 uuid in
       found <- Subscription_findOne from ;;
       bypass <- gets bypass_on ;;
       now <- new_Date ;;
       match found with
       | None =>
           if bypass then throw   (* [subscription.messagesAllowed] on [null] *)
           else ret (Json 403 (BFail "No active subscription" None))
       | Some subscription =>
       if negb bypass && (endDate subscription <? now)
       then ret (Json 403 (BFail "Subscription expired" None))
       else
         let remainingMessages := remaining_of subscription in
         if negb bypass && exhausted remainingMessages
         then ret (Json 403 (BLimit (messagesAllowed subscription)
                                    (num0 (messagesUsedTotal subscription))
                                    (default 0%Q remainingMessages)))
         else
           existing <- Chat_findOne from to ;;
           chat <- match existing with
                   | Some c => ret c
                   | None => Chat_create from to
                   end ;;
           created <- new_Date ;;
           Chat_push_save chat (mkMessage from to text petition created (Some "sent")) ;;;
           subscription <-
             (if bypass then ret subscription
              else
                let updated :=
                  set_messagesUsedTotal (num0 (messagesUsedTotal subscription) + 1)%Q
                    subscription in
                Subscription_save write_totals updated ;;;
                ret updated) ;;
           attached <- gets io ;;
           (if attached then notify from to petition text else ret tt) ;;;
           online <- gets (fun w => onlineUsers w !! to) ;;
           ret (Json 200
                  (BSent petition text (messagesUsedTotal subscription)
                     (match remainingMessages with
                      | Some r => Some (Qmax 0 (r - 1))
                      | None => None
                      end)
                     (match online with
                      | Some _ => "delivered"
                      | None => "pending"
                      end)))
       end
     end)
    (ret (Json 500 (BFail "Failed to send message" None))).

End Http.

(** ** sockets/chat.namespace.js *)

Module Socket.

Record Validation := mkValidation {
  valid : bool;
  canChat : bool;
  v_message : option Text
}.

(** [validateBothUsersSubscription] of the namespace.  The
    [remainingMessages] it also returns is read by [join_chat] only. *)
Definition validateBothUsersSubscription (userId1 userId2 : string) : M Validation :=
  try_catch
    (bypass <- gets bypass_on ;;
     if bypass then ret (mkValidation true true (Some (Plain "Bypassed (dev mode)")))
     else
       user1Sub <- Subscription_findOne userId1 ;;
       user2Sub <- Subscription_findOne userId2 ;;
       match user1Sub, user2Sub with
       | Some s1, Some s2 =>
           now <- new_Date ;;
           if (endDate s1 <? now) || (endDate s2 <? now)
           then ret (mkValidation false false
                       (Some (Plain "One or both subscriptions have expired")))
           else ret (mkValidation true true None)
       | _, _ =>
           ret (mkValidation false false
                  (Some (Plain "Both users must have active subscriptions to chat")))
       end)
    (ret (mkValidation false false (Some (Plain "Failed to validate subscriptions")))).

Record LimitCheck := mkLimitCheck {
  canSend : bool;
  l_message : option Text;
  l_remaining : option Q
}.

(** [new Date().toISOString().split('T')[0]], as the number of the UTC day *)
Definition day_of (now : Z) : Z := now / 86400000.

(** [checkMessageLimit] *)
Definition checkMessageLimit (uid : string) : M LimitCheck :=
  try_catch
    (bypass <- gets bypass_on ;;
     if bypass then ret (mkLimitCheck true (Some (Plain "Bypassed (dev mode)")) None)
     else
       found <- Subscription_findOne uid ;;
       match found with
       | None => ret (mkLimitCheck false (Some (Plain "No active subscription")) None)
       | Some subscription =>
           now <- new_Date ;;
           if endDate subscription <? now
           then ret (mkLimitCheck false (Some (Plain "Subscription expired")) None)
           else
             match messagesPerDay subscription with
             | None => ret (mkLimitCheck true (Some (Plain "Unlimited messages")) None)
             | Some maxMessages =>
                 today <- gets (fun w => day_of (clock w)) ;;
                 subscription <-
                   (if bool_decide (lastMessageDate subscription = Some today)
                    then ret subscription
                    else
                      let reset := set_daily (Some 0%Q) (Some today) subscription in
                      Subscription_save write_daily reset ;;;
                      ret reset) ;;
                 let usedToday := num0 (messagesUsedToday subscription) in
                 let remaining := Qmax 0 (maxMessages - usedToday) in
                 if Qle_bool remaining 0
                 then ret (mkLimitCheck false (Some (DailyLimit maxMessages)) None)
                 else ret (mkLimitCheck true None (Some remaining))
             end
       end)
    (ret (mkLimitCheck false (Some (Plain "Failed to check message limit")) None)).

Inductive SaveResult :=
| Saved (remainingMessages : option Q) (tempId : option string)
| NotSaved (tempId : option string).

(** The in-memory subscription after [saveMessageToDB] assigned its three
    usage fields. *)
Definition count_message (s : Subscription) : Subscription :=
  set_daily (Some (num0 (messagesUsedToday s) + 1)%Q) (lastMessageDate s)
    (set_messagesUsedTotal (num0 (messagesUsedTotal s) + 1)%Q s).

(** [saveMessageToDB] *)
Definition saveMessageToDB (fromId toId message messageId : string)
    (tempId : option string) : M SaveResult :=
  try_catch
    (found <- Subscription_findOne fromId ;;
     bypass <- gets bypass_on ;;
     subscription <-
       match found with
       | Some subscription =>
           if bypass then ret found
           else
             let updated := count_message subscription in
             Subscription_save write_totals_today updated ;;;
             ret (Some updated)
       | None => ret None
       end ;;
     existing <- Chat_findOne fromId toId ;;
     chat <- match existing with
             | Some c => ret c
             | None => Chat_create fromId toId
             end ;;
     messageTimestamp <- new_Date ;;
     Chat_push_save chat (mkMessage fromId toId message messageId messageTimestamp None) ;;;
     (* [subscription?.planId?.limits?.messagesPerDay]: this [findOne] has no
        [populate], [planId] is an id and the limit reads as [undefined] *)
     let maxMessages : option Q := None in
     let usedToday :=
       match subscription with
       | Some s => num0 (messagesUsedToday s)
       | None => 0%Q
       end in
     let remainingMessages :=
       if bypass then None
       else if truthy maxMessages then Some (Qmax 0 (num0 maxMessages - usedToday))
       else None in
     ret (Saved remainingMessages tempId))
    (ret (NotSaved tempId)).

Definition is_read_target (messageIds : list string) (m : Message) : bool :=
  bool_decide (petitionId m ∈ messageIds).

Definition mark_read (m : Message) : Message :=
  mkMessage (m_from m) (m_to m) (m_text m) (petitionId m) (createdAt m) (Some "read").

(** [{ $set: { 'messages.$.status': 'read' } }]: the positional operator
    stands for the first element of [messages] that matches the query. *)
Definition set_first_read (messageIds : list string) (c : Chat) : Chat :=
  mkChat (chat_id c) (c_from c) (c_to c)
    (update_first (is_read_target messageIds) mark_read (messages c)).

(** The filter of the [updateMany] in [markMessagesAsRead]. *)
Definition read_filter (readerId senderId : string) (messageIds : list string)
    (c : Chat) : bool :=
  between senderId readerId c && existsb (is_read_target messageIds) (messages c).

Definition Chat_updateMany (p : Chat -> bool) (f : Chat -> Chat) : M unit :=
  guard_fault chatUpdateFails ;;;
  modify (with_chats (map (fun c => if p c then f c else c))) ;;;
  log ChatUpdateMany.

(** [markMessagesAsRead].  The update sets [messages.$.status], a path
    [messageSchema] does not declare: under the schemas of [src/models] it
    is dropped from the update and the matched documents stay as they
    are. *)
Definition markMessagesAsRead (readerId senderId : string) (messageIds : list string)
    : M unit :=
  try_catch
    (strict <- gets schemaStrict ;;
     Chat_updateMany (read_filter readerId senderId messageIds)
       (if strict then (fun c => c) else set_first_read messageIds))
    (ret tt).

End Socket.

(** *** The event handlers of one connection

    [sid] is [socket.id], [uid] is [socket.userId] and [name] the user's
    display name, all fixed when the connection is accepted. *)

Module Handlers.
Import Socket.

(** The body of [nsp.on("connection", ...)] up to the registration of the
    event handlers. *)
Definition on_connection (sid uid name : string) : M unit :=
  try_catch
    (now <- new_Date ;;
     modify (with_onlineUsers (insert uid (mkOnlineEntry sid name now true))) ;;;
     modify (with_userRooms
               (fun rooms =>
                  match rooms !! uid with
                  | Some _ => rooms
                  | None => <[uid := ∅]> rooms
                  end)) ;;;
     others <- gets (fun w =>
                       List.filter (fun id => negb (String.eqb id uid))
                         (map fst (map_to_list (onlineUsers w)))) ;;
     (if (0 <? length others)%nat
      then emit (ToSocket sid) "current_online_users" (POnlineList others)
      else ret tt) ;;;
     emit (Broadcast sid) "user_online" (PPresence uid now))
    (emit (ToSocket sid) "error" (PError "connection_error" (Some (Plain "Connection failed")))).

(** [socket.on("send_message", ...)]; [uuid] is what [uuidv4()] returned. *)
Definition on_send_message (sid uid : string)
    (receiverId message tempId : option string) (uuid : string) : M unit :=
  try_catch
    (match receiverId with
     | None =>
         emit (ToSocket sid) "error"
           (PError "validation_error" (Some (Plain "Receiver ID and message are required")))
     | Some receiverId =>
     if String.eqb receiverId "" || blank message
     then emit (ToSocket sid) "error"
            (PError "validation_error" (Some (Plain "Receiver ID and message are required")))
     else
       let message := default "" message in
       validationResult <- validateBothUsersSubscription uid receiverId ;;
       if negb (valid validationResult) || negb (canChat validationResult)
       then emit (ToSocket sid) "error"
              (PError "subscription_error" (v_message validationResult))
       else
         senderSubscription <- checkMessageLimit uid ;;
         if negb (canSend senderSubscription)
         then emit (ToSocket sid) "error"
                (PError "limit_exceeded" (l_message senderSubscription))
         else
           let messageId := uuid in
           let roomId := generateRoomId uid receiverId in
           savedMessage <- saveMessageToDB uid receiverId message messageId tempId ;;
           match savedMessage with
           | NotSaved _ =>
               emit (ToSocket sid) "error"
                 (PError "db_error" (Some (Plain "Failed to save message")))
           | Saved remainingMessages savedTempId =>
               emit (ToSocket sid) "message_sent"
                 (PMessage messageId uid receiverId (trim message) savedTempId
                    (Some remainingMessages)) ;;;
               receiverOnline <- gets (fun w => onlineUsers w !! receiverId) ;;
               (match receiverOnline with
                | Some _ =>
                    emit (ToRoom ("user_" +:+ receiverId)) "new_message"
                      (PMessage messageId uid receiverId (trim message) savedTempId None) ;;;
                    setTimeout (TDelivered (ToSocket sid) messageId) 100
                | None => ret tt
                end) ;;;
               emit (RoomExcept roomId sid) "new_message"
                 (PMessage messageId uid receiverId (trim message) savedTempId None)
           end
     end)
    (emit (ToSocket sid) "error"
       (PError "send_error" (Some (Plain "Failed to send message")))).

(** [socket.on("mark_messages_read", ...)] *)
Definition on_mark_messages_read (uid senderId : string) (messageIds : list string)
    : M unit :=
  try_catch
    (markMessagesAsRead uid senderId messageIds ;;;
     senderOnline <- gets (fun w => onlineUsers w !! senderId) ;;
     match senderOnline with
     | Some _ =>
         now <- new_Date ;;
         emit (ToRoom ("user_" +:+ senderId)) "messages_read" (PRead uid messageIds now)
     | None => ret tt
     end)
    (ret tt).

Definition go_offline (now : Z) (e : OnlineEntry) : OnlineEntry :=
  mkOnlineEntry (socketId e) (userName e) now false.

(** [socket.on("disconnect", ...)] *)
Definition on_disconnect (sid uid : string) : M unit :=
  registered <- gets (fun w => onlineUsers w !! uid) ;;
  match registered with
  | Some entry =>
      now <- new_Date ;;
      modify (with_onlineUsers (insert uid (go_offline now entry))) ;;;
      emit (Broadcast sid) "user_offline" (PPresence uid now) ;;;
      setTimeout (TRemoveUser uid) 30000
  | None => ret tt
  end.

(** The callbacks handed to [setTimeout]. *)
Definition fire (a : TimerAction) : M unit :=
  match a with
  | TDelivered tgt messageId => emit tgt "message_delivered" (PDelivered messageId)
  | TRemoveUser uid =>
      modify (with_onlineUsers (delete uid)) ;;;
      modify (with_userRooms (delete uid))
  end.

End Handlers.

(** ** The event loop: connections, disconnections and the passing of time *)

Inductive Event :=
| Connect (sid uid name : string)
| Disconnect (sid uid : string)
| SendMessage (sid uid : string) (receiverId message tempId : option string) (uuid : string)
| MarkRead (uid senderId : string) (messageIds : list string)
| Elapse (ms : Z).

Definition set_clock (t : Z) (w : World) : World :=
  mkWorld (BYPASS_SUBSCRIPTION_CHECKS w) (schemaStrict w) (io w) t (faults w)
    (subscriptions w) (chats w) (onlineUsers w) (userRooms w) (timers w) (trace w).

Fixpoint fire_all (l : list Timer) : M unit :=
  match l with
  | [] => ret tt
  | t :: r => Handlers.fire (action t) ;;; fire_all r
  end.

Fixpoint insert_due (t : Timer) (l : list Timer) : list Timer :=
  match l with
  | [] => [t]
  | u :: r => if due u <? due t then u :: insert_due t r else t :: l
  end.

(** Let [ms] milliseconds pass: the callbacks that fall due run, earliest
    first, and in the order of registration when due together. *)
Definition elapse (ms : Z) : M unit :=
  fun w =>
    let t := clock w + ms in
    let ready := List.filter (fun x => due x <=? t) (timers w) in
    let waiting := List.filter (fun x => negb (due x <=? t)) (timers w) in
    fire_all (fold_right insert_due [] ready)
      (with_timers (fun _ => waiting) (set_clock t w)).

Definition handle (e : Event) : M unit :=
  match e with
  | Connect sid uid name => Handlers.on_connection sid uid name
  | Disconnect sid uid => Handlers.on_disconnect sid uid
  | SendMessage sid uid receiverId message tempId uuid =>
      Handlers.on_send_message sid uid receiverId message tempId uuid
  | MarkRead uid senderId messageIds => Handlers.on_mark_messages_read uid senderId messageIds
  | Elapse ms => elapse ms
  end.

Fixpoint run (es : list Event) : M unit :=
  match es with
  | [] => ret tt
  | e :: r => handle e ;;; run r
  end.

(** The events emitted so far, and those of one name. *)
Definition outbox (w : World) : list Emit :=
  omap (fun e => match e with Emitted x => Some x | _ => None end) (trace w).

Definition emitted (ev : string) (w : World) : list Emit :=
  List.filter (fun e => String.eqb (event e) ev) (outbox w).

(** ** sockets/presence.namespace.js *)

Module Presence.

Record Entry := mkEntry {
  socket : string;
  joinedAt : Z;
  lastSeen : Z
}.

(** The fields of the [PresenceNamespace] instance, the clock, and what
    was emitted on the namespace. *)
Record State := mkState {
  onlineUsers : gmap string Entry;
  userSockets : gmap string (gset string);
  now : Z;
  sent : list Emit
}.

Definition send (t : Target) (ev : string) (p : Payload) (st : State) : State :=
  mkState (onlineUsers st) (userSockets st) (now st) (sent st ++ [mkEmit t ev p])%list.

(** [addUserOnline] *)
Definition addUserOnline (uid sid : string) (st : State) : State :=
  let sockets := default ∅ (userSockets st !! uid) in
  mkState
    (<[uid := mkEntry sid (now st) (now st)]> (onlineUsers st))
    (<[uid := sockets ∪ {[sid]}]> (userSockets st))
    (now st) (sent st).

(** [sendOnlineUsersToSocket] *)
Definition sendOnlineUsersToSocket (sid : string) (st : State) : State :=
  send (ToSocket sid) "online_users"
    (POnlineList (map fst (map_to_list (onlineUsers st)))) st.

(** [broadcastUserOnline] *)
Definition broadcastUserOnline (uid : string) (st : State) : State :=
  send ToAll "user_online" (PPresence uid (now st)) st.

(** [broadcastUserOffline] *)
Definition broadcastUserOffline (uid : string) (seen : Z) (st : State) : State :=
  send ToAll "user_offline" (PPresence uid seen) st.

(** [handleConnection] *)
Definition handleConnection (uid sid : string) (st : State) : State :=
  broadcastUserOnline uid (sendOnlineUsersToSocket sid (addUserOnline uid sid st)).

(** [handleDisconnection] *)
Definition handleDisconnection (uid sid : string) (st : State) : State :=
  match userSockets st !! uid with
  | Some userSocketSet =>
      let remaining := userSocketSet ∖ {[sid]} in
      if bool_decide (size remaining = 0%nat) then
        let st1 := mkState (onlineUsers st) (delete uid (userSockets st)) (now st) (sent st) in
        match onlineUsers st1 !! uid with
        | Some userData =>
            broadcastUserOffline uid (now st1)
              (mkState (delete uid (onlineUsers st1)) (userSockets st1) (now st1) (sent st1))
        | None => st1
        end
      else
        mkState (onlineUsers st) (<[uid := remaining]> (userSockets st)) (now st) (sent st)
  | None => st
  end.

Definition tick (ms : Z) (st : State) : State :=
  mkState (onlineUsers st) (userSockets st) (now st + ms) (sent st).

Definition offline_broadcasts (uid : string) (st : State) : list Emit :=
  List.filter
    (fun e =>
       String.eqb (event e) "user_offline"
       && match payload e with
          | PPresence u _ => String.eqb u uid
          | _ => false
          end)
    (sent st).

End Presence.

(** ** The HTTP handler between its awaits

    An [async] handler runs without interruption from one [await] to the
    next; at an [await] the handlers of other requests and connections may
    run.  [Pc] says at which [await] of [sendMessage] a request stands, with
    the local variables it holds there; [step] runs it to its next [await]. *)

Module Interleaving.

Inductive Pc :=
| Validating (to text : string)
| FindingSubscription (to text : string)
| FindingChat (to text : string) (subscription : Subscription)
| CreatingChat (to text : string) (subscription : Subscription)
| SavingChat (to text : string) (subscription : Subscription) (chat : Chat)
| SavingSubscription (to text : string) (subscription : Subscription)
| Done (r : Response).

Record Thread := mkThread {
  sender : string;
  request_uuid : string;
  pc : Pc
}.

(** The synchronous prefix of the handler. *)
Definition start (to message : option string) : Pc :=
  match to with
  | None => Done (Json 400 (BFail "Recipient (to) is required" None))
  | Some to =>
      if String.eqb to "" then Done (Json 400 (BFail "Recipient (to) is required" None))
      else if blank message then Done (Json 400 (BFail "Message text is required" None))
      else Validating to (trim (default "" message))
  end.

(** What follows the last [await]: step 7 and the response.  [loaded] is
    the subscription as step 1 read it. *)
Definition finish (from to text petition : string) (loaded subscription : Subscription)
    : M Pc :=
  attached <- gets io ;;
  (if attached then Http.notify from to petition text else ret tt) ;;;
  online <- gets (fun w => onlineUsers w !! to) ;;
  ret (Done (Json 200
               (BSent petition text (messagesUsedTotal subscription)
                  (match Http.remaining_of loaded with
                   | Some r => Some (Qmax 0 (r - 1))
                   | None => None
                   end)
                  (match online with
                   | Some _ => "delivered"
                   | None => "pending"
                   end)))).

Definition step_body (from uuid : string) (at_ : Pc) : M Pc :=
  let petition := "MSG" +:+ substring 0 5 uuid in
  match at_ with
  | Validating to text =>
      bothUsersValid <- Http.validateBothUsersSubscription from to ;;
      if negb (fst bothUsersValid)
      then ret (Done (Json 403 (BFail (default "" (snd bothUsersValid))
                                      (Some "SUBSCRIPTION_REQUIRED"))))
      else ret (FindingSubscription to text)
  | FindingSubscription to text =>
      found <- Subscription_findOne from ;;
      bypass <- gets bypass_on ;;
      now <- new_Date ;;
      match found with
      | None =>
          if bypass then throw
          else ret (Done (Json 403 (BFail "No active subscription" None)))
      | Some subscription =>
          if negb bypass && (endDate subscription <? now)
          then ret (Done (Json 403 (BFail "Subscription expired" None)))
          else if negb bypass && Http.exhausted (Http.remaining_of subscription)
          then ret (Done (Json 403
                            (BLimit (messagesAllowed subscription)
                               (num0 (messagesUsedTotal subscription))
                               (default 0%Q (Http.remaining_of subscription)))))
          else ret (FindingChat to text subscription)
      end
  | FindingChat to text subscription =>
      existing <- Chat_findOne from to ;;
      match existing with
      | Some c => ret (SavingChat to text subscription c)
      | None => ret (CreatingChat to text subscription)
      end
  | CreatingChat to text subscription =>
      chat <- Chat_create from to ;;
      ret (SavingChat to text subscription chat)
  | SavingChat to text subscription chat =>
      created <- new_Date ;;
      Chat_push_save chat (mkMessage from to text petition created (Some "sent")) ;;;
      bypass <- gets bypass_on ;;
      if bypass then finish from to text petition subscription subscription
      else ret (SavingSubscription to text subscription)
  | SavingSubscription to text subscription =>
      let updated :=
        set_messagesUsedTotal (num0 (messagesUsedTotal subscription) + 1)%Q subscription in
      Subscription_save write_totals updated ;;;
      finish from to text petition subscription updated
  | Done r => ret (Done r)
  end.

(** One step, within the handler's [try]/[catch]. *)
Definition step (from uuid : string) (at_ : Pc) : M Pc :=
  try_catch (step_body from uuid at_)
    (ret (Done (Json 500 (BFail "Failed to send message" None)))).

(** A request handled alone, from its first [await] to its response. *)
Fixpoint complete (fuel : nat) (from uuid : string) (at_ : Pc) : M Pc :=
  match fuel with
  | O => ret at_
  | S n => next <- step from uuid at_ ;; complete n from uuid next
  end.

(** The requests in flight; [schedule] names, step by step, the request
    that runs next. *)
Definition advance (i : nat) (ts : list Thread) : M (list Thread) :=
  match ts !! i with
  | Some t =>
      next <- step (sender t) (request_uuid t) (pc t) ;;
      ret (<[i := mkThread (sender t) (request_uuid t) next]> ts)
  | None => ret ts
  end.

Fixpoint run_schedule (schedule : list nat) (ts : list Thread) : M (list Thread) :=
  match schedule with
  | [] => ret ts
  | i :: rest => ts' <- advance i ts ;; run_schedule rest ts'
  end.

Definition is_granted (r : Response) : bool :=
  match r with
  | Json c _ => c =? 200
  end.

Definition granted (ts : list Thread) : nat :=
  length (List.filter (fun t => match pc t with
                                | Done r => is_granted r
                                | _ => false
                                end) ts).

End Interleaving.

(** Requests of one sender served one after the other, each to its end. *)
Record SendRequest := mkSendRequest {
  req_to : option string;
  req_message : option string;
  req_uuid : string
}.

Fixpoint serve (from : string) (reqs : list SendRequest) : M (list Response) :=
  match reqs with
  | [] => ret []
  | q :: rest =>
      r <- Http.sendMessage from (req_to q) (req_message q) (req_uuid q) ;;
      rs <- serve from rest ;;
      ret (r :: rs)
  end.

Definition count_granted (rs : list Response) : Z :=
  Z.of_nat (length (List.filter Interleaving.is_granted rs)).

(** ** Observations the statements are written with *)

(** The status code a handler answered with. *)
Definition http_status (x : Res Response * World) : Z :=
  match fst x with
  | Ok (Json c _) => c
  | Throw => 0
  end.

(** The allowance and the usage counter of a call type, as
    [ensureCallQuota] and [stopCallUsage] select them. *)
Definition call_allowed (t : string) (s : Subscription) : option Q :=
  if String.eqb t "audio" then audioTimeAllowed s else videoTimeAllowed s.

Definition call_used (t : string) (s : Subscription) : option Q :=
  if String.eqb t "audio" then audioTimeUsedTotal s else videoTimeUsedTotal s.

(** The in-memory subscription of the HTTP handler after its step 6. *)
Definition debit_message (s : Subscription) : Subscription :=
  set_messagesUsedTotal (num0 (messagesUsedTotal s) + 1)%Q s.

(** Document ids are unique within the collection. *)
Definition unique_ids (w : World) : Prop := NoDup (map sub_id (subscriptions w)).

(** The subscription document a user's lookups resolve to. *)
Definition subscription_of (uid : string) (w : World) : option Subscription :=
  List.find (owned_by uid) (subscriptions w).

(** The effects a run added to the trace. *)
Definition added (w w' : World) : list Effect := drop (length (trace w)) (trace w').








Definition error_event (sid kind : string) (text : option Text) : Emit :=
  mkEmit (ToSocket sid) "error" (PError kind text).

(** What [on_send_message] emits once the message is saved. *)
Definition acknowledgement (sid uid receiver text uuid : string) (tempId : option string)
    (remainingMessages : option Q) : Emit :=
  mkEmit (ToSocket sid) "message_sent"
    (PMessage uuid uid receiver (trim text) tempId (Some remainingMessages)).

Definition deliveries (sid uid receiver text uuid : string) (tempId : option string)
    (w : World) : list Emit :=
  (match onlineUsers w !! receiver with
   | Some _ =>
       [mkEmit (ToRoom ("user_" +:+ receiver)) "new_message"
          (PMessage uuid uid receiver (trim text) tempId None)]
   | None => []
   end
   ++ [mkEmit (RoomExcept (generateRoomId uid receiver) sid) "new_message"
         (PMessage uuid uid receiver (trim text) tempId None)])%list.






(** Read receipts. *)
Definition is_read (m : Message) : bool :=
  match status m with
  | Some st => String.eqb st "read"
  | None => false
  end.

Definition read_count (c : Chat) : nat := length (List.filter is_read (messages c)).

(** [c'] is [c], or [c] with its first message among [messageIds] marked. *)
Definition marks_first (messageIds : list string) (c c' : Chat) : Prop :=
  c' = c \/
  exists pre m post,
    messages c = (pre ++ m :: post)%list
    /\ Forall (fun x => petitionId x ∉ messageIds) pre
    /\ petitionId m ∈ messageIds
    /\ c' = mkChat (chat_id c) (c_from c) (c_to c) (pre ++ Socket.mark_read m :: post)%list.

Definition read_notice (uid senderId : string) (messageIds : list string) (w : World)
    : list Emit :=
  match onlineUsers w !! senderId with
  | Some _ =>
      [mkEmit (ToRoom ("user_" +:+ senderId)) "messages_read"
         (PRead uid messageIds (clock w))]
  | None => []
  end.

(** ** Sample data *)

Definition subscription_for (id uid : string) (ends : Z) (used : Q) (allowed : option Q)
    : Subscription :=
  mkSubscription id uid ends (Some used) allowed
    (Some 0%Q) (Some 0%Q) (Some 0%Q) (Some 0%Q) (Some used) (Some 0%Q) (Some 0%Q)
    None None None.

Definition audio_subscription (id uid : string) (ends : Z) (used : Q) (allowed : option Q)
    : Subscription :=
  mkSubscription id uid ends (Some 0%Q) None
    (Some used) (Some 0%Q) allowed (Some 0%Q) (Some 0%Q) (Some used) (Some 0%Q)
    None None None.

(** A document that carries the daily paths: one message a day, used up
    on day 0. *)
Definition daily_spent_subscription (id uid : string) (ends : Z) : Subscription :=
  mkSubscription id uid ends (Some 1%Q) (Some 10%Q)
    (Some 0%Q) (Some 0%Q) (Some 0%Q) (Some 0%Q) (Some 1%Q) (Some 0%Q) (Some 0%Q)
    (Some 1%Q) (Some 0) (Some 1%Q).

(** A server at time 1000 with the given environment flag, faults and
    subscriptions, the schemas of [src/models], no chats and nobody
    connected. *)
Definition sample_world (flag : option string) (f : Faults) (subs : list Subscription)
    : World :=
  mkWorld flag true true 1000 f subs [] ∅ ∅ [] [].

Definition bob : Subscription := subscription_for "sub-bob" "bob" 5000 0 None.
Definition carol : Subscription := subscription_for "sub-carol" "carol" 5000 0 None.

(** One message left. *)
Definition alice_last_unit : Subscription := subscription_for "sub-alice" "alice" 5000 0 (Some 1%Q).
(** Allowance of one message, used. *)
Definition alice_spent : Subscription := subscription_for "sub-alice" "alice" 5000 1 (Some 1%Q).
(** Ended at 500, with nine of ten messages unused. *)
Definition alice_expired : Subscription := subscription_for "sub-alice" "alice" 500 1 (Some 10%Q).
Definition alice_unlimited : Subscription := subscription_for "sub-alice" "alice" 5000 700 None.
Definition alice_disabled : Subscription := subscription_for "sub-alice" "alice" 5000 0 (Some 0%Q).
(** Sixty audio seconds allowed, fifty used. *)
Definition alice_audio : Subscription := audio_subscription "sub-alice" "alice" 5000 50 (Some 60%Q).
Definition alice_null_audio : Subscription := audio_subscription "sub-alice" "alice" 5000 0 None.
Definition alice_daily_spent : Subscription := daily_spent_subscription "sub-alice" "alice" 5000.

Definition persistence_down : Faults := mkFaults false false false false true false.

Definition no_presence : Presence.State := Presence.mkState ∅ ∅ 1000 [].

(** * Properties *)

(** ** Room ids *)

Lemma ltb_asym (a b : string) : String.ltb a b = true -> String.ltb b a = false.
Proof.
  unfold String.ltb. rewrite (String.compare_antisym b a).
  destruct (String.compare a b); simpl; congruence.
Qed.

Lemma ltb_none_eq (a b : string) :
  String.ltb a b = false -> String.ltb b a = false -> a = b.
Proof.
  unfold String.ltb. rewrite (String.compare_antisym b a).
  destruct (String.compare a b) eqn:E; simpl; try congruence.
  intros _ _. now apply String.compare_eq_iff.
Qed.

Lemma sort_pair_comm (a b : string) : sort [a; b] = sort [b; a].
Proof.
  unfold sort; simpl.
  destruct (String.ltb b a) eqn:Hba, (String.ltb a b) eqn:Hab; try reflexivity.
  - apply ltb_asym in Hba. congruence.
  - now rewrite (ltb_none_eq a b).
Qed.

(** C9. The room id of a pair of user ids does not depend on the order of
    the two ids: [generateRoomId a b = generateRoomId b a]. *)
Theorem generateRoomId_comm (a b : string) : generateRoomId a b = generateRoomId b a.
Proof. unfold generateRoomId. now rewrite sort_pair_comm. Qed.

Example generateRoomId_example :
  generateRoomId "u2" "u1" = "chat_u1_u2" /\ generateRoomId "u1" "u2" = "chat_u1_u2".
Proof. split; reflexivity. Qed.

(** ** Proof tools *)

Arguments Qle_bool : simpl never.
Arguments Qeq_bool : simpl never.
Arguments Qmax : simpl never.
Arguments Qplus : simpl never.
Arguments Qminus : simpl never.
Arguments inject_Z : simpl never.

Ltac unfold_m :=
  cbv [bind ret throw try_catch gets modify guard_fault new_Date emit log setTimeout
       hydrate cast_message option_map] in *.

(** Case analysis on the innermost scrutinee the goal is stuck on. *)
Ltac split_match :=
  match goal with
  | |- context [match ?x with _ => _ end] =>
      lazymatch x with
      | context [match _ with _ => _ end] => fail
      | _ => destruct x eqn:?
      end
  end.

Ltac z_absurd :=
  exfalso;
  repeat match goal with
         | H : (_ <=? _) = false |- _ => apply Z.leb_gt in H
         | H : (_ <=? _) = true |- _ => apply Z.leb_le in H
         | H : (_ <? _) = false |- _ => apply Z.ltb_ge in H
         | H : (_ <? _) = true |- _ => apply Z.ltb_lt in H
         end;
  lia.

Ltac unfold_http :=
  unfold http_status, Http.sendMessage, Http.validateBothUsersSubscription,
    Subscription_findOne, Chat_findOne, Chat_create, Chat_push_save, Subscription_save,
    Http.notify, Http.remaining_of, Http.exhausted;
  unfold_m; unfold bypass_on in *; simpl.

Ltac unfold_socket :=
  unfold Handlers.on_send_message, Socket.validateBothUsersSubscription,
    Socket.checkMessageLimit, Socket.saveMessageToDB,
    Subscription_findOne, Chat_findOne, Chat_create, Chat_push_save, Subscription_save;
  unfold_m; unfold bypass_on in *; simpl.

Ltac simpl_outbox :=
  unfold emitted, outbox; simpl; rewrite ?omap_app; simpl; rewrite ?filter_app; simpl;
  rewrite ?app_nil_r.


(** ** Updating the first matching document *)

Section UpdateFirst.
Context {A : Type}.
Implicit Types (p q : A -> bool) (f : A -> A) (l : list A).

Lemma find_update_first p q f l x :
  List.find p l = Some x ->
  (forall y, In y l -> q y = true -> y = x) ->
  q x = true ->
  p (f x) = true ->
  List.find p (update_first q f l) = Some (f x).
Proof.
  induction l as [|y r IH]; simpl; intros Hfind Huniq Hq Hp; [discriminate|].
  destruct (p y) eqn:Hpy.
  - injection Hfind as ->. rewrite Hq. simpl. now rewrite Hp.
  - destruct (q y) eqn:Hqy.
    + assert (y = x) as -> by (apply Huniq; auto).
      apply find_some in Hfind. destruct Hfind as [_ Hpx]. congruence.
    + simpl. rewrite Hpy. apply IH; auto.
Qed.

Lemma find_update_first_self p f l x :
  List.find p l = Some x -> p (f x) = true ->
  List.find p (update_first p f l) = Some (f x).
Proof.
  induction l as [|y r IH]; simpl; intros Hf Hp; [discriminate|].
  destruct (p y) eqn:Hpy.
  - injection Hf as ->. simpl. now rewrite Hp.
  - simpl. rewrite Hpy. now apply IH.
Qed.

Lemma map_update_first {B} (g : A -> B) q f l :
  (forall y, g (f y) = g y) -> map g (update_first q f l) = map g l.
Proof.
  intros Hg. induction l as [|y r IH]; simpl; [reflexivity|].
  destruct (q y); simpl; [now rewrite Hg | now rewrite IH].
Qed.

Lemma unique_by_key {B} (g : A -> B) l x y :
  NoDup (map g l) -> In x l -> In y l -> g x = g y -> x = y.
Proof.
  induction l as [|z r IH]; simpl; intros Hnd Hx Hy Hg; [contradiction|].
  inversion Hnd as [|? ? Hz Hr]; subst.
  rewrite list_elem_of_In in Hz.
  destruct Hx as [-> | Hx], Hy as [-> | Hy]; auto.
  - exfalso. apply Hz. rewrite Hg. now apply in_map.
  - exfalso. apply Hz. rewrite <- Hg. now apply in_map.
Qed.

Lemma update_first_shape q f l :
  update_first q f l = l
  \/ exists pre m post,
       l = (pre ++ m :: post)%list
       /\ Forall (fun x => q x = false) pre
       /\ q m = true
       /\ update_first q f l = (pre ++ f m :: post)%list.
Proof.
  induction l as [|y r IH]; simpl; [now left|].
  destruct (q y) eqn:Hq.
  - right. exists [], y, r. simpl. repeat split; auto.
  - destruct IH as [-> | (pre & m & post & -> & Hpre & Hm & ->)]; [now left|].
    right. exists (y :: pre), m, post. simpl. repeat split; auto.
Qed.

End UpdateFirst.

Lemma same_sub_unique (l : list Subscription) (s x : Subscription) :
  NoDup (map sub_id l) -> In x l -> sub_id s = sub_id x ->
  forall y, In y l -> same_sub s y = true -> y = x.
Proof.
  intros Hnd Hx Hid y Hy Hs. unfold same_sub in Hs.
  apply String.eqb_eq in Hs. apply (unique_by_key sub_id l); congruence.
Qed.

(** Saving a loaded document replaces that document in the collection. *)
Lemma find_after_save (l : list Subscription) (uid : string) (s s' : Subscription)
    (write : Subscription -> Subscription) :
  NoDup (map sub_id l) ->
  List.find (owned_by uid) l = Some s ->
  sub_id s' = sub_id s ->
  userId (write s) = userId s ->
  List.find (owned_by uid) (update_first (same_sub s') write l) = Some (write s).
Proof.
  intros Hnd Hf Hid Hu.
  destruct (find_some _ _ Hf) as [Hin Hown].
  apply find_update_first; auto.
  - now apply same_sub_unique.
  - unfold same_sub. rewrite Hid. apply String.eqb_refl.
  - unfold owned_by in *. now rewrite Hu.
Qed.

(** ** The HTTP send-message handler with enforcement on *)

(** Either the send is granted and the debited document was saved, or the
    subscriptions are as they were. *)
Lemma sendMessage_enforced (w : World) (from uuid : string) (to message : option string)
    (s : Subscription) :
  bypass_on w = false ->
  subscription_of from w = Some s ->
  let r := Http.sendMessage from to message uuid w in
  (http_status r = 200
   /\ (endDate s <? clock w) = false
   /\ Http.exhausted (Http.remaining_of s) = false
   /\ subscriptions (snd r)
      = update_first (same_sub (debit_message s))
          (write_totals (schemaStrict w) (debit_message s)) (subscriptions w))
  \/ ((http_status r = 400 \/ http_status r = 403 \/ http_status r = 500)
      /\ subscriptions (snd r) = subscriptions w).
Proof.
  intros Hb Hf. cbv zeta. unfold subscription_of in Hf.
  unfold http_status, Http.sendMessage, Http.validateBothUsersSubscription,
    Subscription_findOne, Chat_findOne, Chat_create, Chat_push_save, Subscription_save,
    Http.notify.
  unfold_m. unfold bypass_on in *. simpl. rewrite ?Hb. simpl.
  repeat (first [rewrite Hb | rewrite Hf | split_match]; simpl; try (intuition congruence));
    left; repeat split; first [reflexivity | assumption].
Qed.

(** A send is let through only while the counter is below the allowance. *)
Lemma not_exhausted_below (s : Subscription) (allowed : Q) :
  messagesAllowed s = Some allowed ->
  Http.exhausted (Http.remaining_of s) = false ->
  (num0 (messagesUsedTotal s) < allowed)%Q.
Proof.
  intros Ha Hex. unfold Http.exhausted, Http.remaining_of in Hex. rewrite Ha in Hex.
  destruct (Qlt_le_dec (num0 (messagesUsedTotal s)) allowed) as [H|H]; [exact H|].
  exfalso.
  assert (Hle : (Qmax 0 (allowed - num0 (messagesUsedTotal s)) <= 0)%Q)
    by (apply Q.max_lub; lra).
  apply Qle_bool_iff in Hle. congruence.
Qed.

Lemma exhausted_at_allowance (s : Subscription) (allowed : Q) :
  messagesAllowed s = Some allowed ->
  (allowed <= num0 (messagesUsedTotal s))%Q ->
  Http.exhausted (Http.remaining_of s) = true.
Proof.
  intros Ha Hle. unfold Http.exhausted, Http.remaining_of. rewrite Ha.
  apply Qle_bool_iff, Q.max_lub; lra.
Qed.

Lemma http_debit_within_allowance (w : World) (from uuid : string)
    (to message : option string) (s : Subscription) (allowed : Q) :
  bypass_on w = false ->
  unique_ids w ->
  subscription_of from w = Some s ->
  messagesAllowed s = Some allowed ->
  let r := Http.sendMessage from to message uuid w in
  (http_status r = 200 ->
   exists s', subscription_of from (snd r) = Some s'
              /\ messagesUsedTotal s' = Some (num0 (messagesUsedTotal s) + 1)%Q
              /\ messagesAllowed s' = Some allowed
              /\ (num0 (messagesUsedTotal s) < allowed)%Q)
  /\ (http_status r <> 200 -> subscriptions (snd r) = subscriptions w).
Proof.
  intros Hb Hu Hf Ha r.
  destruct (sendMessage_enforced w from uuid to message s Hb Hf)
    as [(H200 & _ & Hex & Hsubs) | (Hcode & Hsubs)].
  - fold r in H200, Hsubs. split; [intros _ | congruence].
    exists (write_totals (schemaStrict w) (debit_message s) s).
    unfold subscription_of. rewrite Hsubs. split; [|split; [|split]].
    + apply find_after_save; auto.
    + reflexivity.
    + exact Ha.
    + now apply not_exhausted_below.
  - fold r in Hcode, Hsubs. split; [|auto]. intros H. exfalso. lia.
Qed.

(** ** Call-stop accounting *)

Lemma stop_call_adds (w : World) (uid t : string) (e : option Q) (s : Subscription) :
  t = "audio" \/ t = "video" ->
  subscription_of uid w = Some s ->
  subSaveFails (faults w) = false ->
  0 < elapsed_secs e ->
  let r := stopCallUsage uid (Some t) e w in
  http_status r = 200
  /\ exists s', subscription_of uid (snd r) = Some s'
                /\ call_used t s' = Some (num0 (call_used t s) + inject_Z (elapsed_secs e))%Q
                /\ call_allowed t s' = call_allowed t s.
Proof.
  intros Ht Hf Hfault Hpos. cbv zeta. unfold subscription_of in *.
  apply Z.ltb_lt in Hpos.
  assert (Hown : owned_by uid s = true) by (now destruct (find_some _ _ Hf)).
  unfold http_status, stopCallUsage, Subscription_findOneAndUpdate.
  destruct Ht as [-> | ->]; simpl; unfold_m; simpl; rewrite Hpos, Hfault, Hf; simpl;
    (split; [reflexivity|]).
  - exists (inc_audio (elapsed_secs e) s). split; [|split; reflexivity].
    now apply find_update_first_self.
  - exists (inc_video (elapsed_secs e) s). split; [|split; reflexivity].
    now apply find_update_first_self.
Qed.
(** ** Null and zero allowances *)

Lemma http_unlimited_granted (w : World) (from to text uuid : string)
    (s peer : Subscription) :
  bypass_on w = false ->
  faults w = noFaults ->
  String.eqb to "" = false ->
  blank (Some text) = false ->
  subscription_of from w = Some s ->
  subscription_of to w = Some peer ->
  clock w <= endDate s ->
  clock w <= endDate peer ->
  messagesAllowed s = None ->
  http_status (Http.sendMessage from (Some to) (Some text) uuid w) = 200.
Proof.
  intros Hb Hfa Hto Hmsg Hs Hp Hes Hep Ha. unfold subscription_of in *.
  apply Z.ltb_ge in Hes, Hep. simpl in Hmsg.
  unfold_http.
  repeat (first [rewrite Hb | rewrite Hfa | rewrite Hto | rewrite Hmsg | rewrite Hs
                | rewrite Hp | rewrite Hes | rewrite Hep | rewrite Ha | split_match];
          simpl; try reflexivity).
Qed.

Lemma http_zero_denied (w : World) (from uuid : string) (to message : option string)
    (s : Subscription) (allowed : Q) :
  bypass_on w = false ->
  subscription_of from w = Some s ->
  messagesAllowed s = Some allowed ->
  (allowed == 0)%Q ->
  (0 <= num0 (messagesUsedTotal s))%Q ->
  let r := Http.sendMessage from to message uuid w in
  (http_status r = 400 \/ http_status r = 403)
  /\ subscriptions (snd r) = subscriptions w
  /\ chats (snd r) = chats w.
Proof.
  intros Hb Hf Ha Hz Hu. cbv zeta. unfold subscription_of in *.
  assert (Hq : Qle_bool (Qmax 0 (allowed - num0 (messagesUsedTotal s))) 0 = true)
    by (apply Qle_bool_iff, Q.max_lub; lra).
  unfold_http. rewrite ?Hb. simpl.
  repeat (first [rewrite Hb | rewrite Hf | rewrite Ha | rewrite Hq | split_match]; simpl;
          try (intuition congruence)).
Qed.

Lemma quota_spent (allowed used : Q) :
  (allowed == 0)%Q -> (0 <= used)%Q -> Qle_bool (Qmax 0 (allowed - used)) 0 = true.
Proof. intros Ha Hu. apply Qle_bool_iff, Q.max_lub; lra. Qed.

Lemma call_no_allowance_denied (w : World) (uid t : string) (s : Subscription) :
  t = "audio" \/ t = "video" ->
  List.find (fun x => owned_by uid x && (clock w <? endDate x)) (subscriptions w) = Some s ->
  (num0 (call_allowed t s) == 0)%Q ->
  (0 <= num0 (call_used t s))%Q ->
  http_status (startCallUsage uid (Some t) w) = 403
  \/ http_status (startCallUsage uid (Some t) w) = 500.
Proof.
  intros Ht Hf Ha Hu. pose proof (quota_spent _ _ Ha Hu) as Hq.
  unfold http_status, startCallUsage, ensureCallQuota, getActiveSubscription,
    Subscription_findOne_active.
  destruct Ht as [-> | ->]; unfold call_allowed, call_used in *; simpl in *;
    unfold_m; simpl; (destruct (subFindFails (faults w)); simpl; [now right|]);
    rewrite Hf; simpl; destruct (schemaStrict w); simpl; rewrite Hq; now left.
Qed.

(** ** Expired subscriptions *)

Lemma http_expired_denied (w : World) (from uuid : string) (to message : option string)
    (s : Subscription) :
  bypass_on w = false ->
  subscription_of from w = Some s ->
  endDate s < clock w ->
  let r := Http.sendMessage from to message uuid w in
  (http_status r = 400 \/ http_status r = 403)
  /\ subscriptions (snd r) = subscriptions w
  /\ chats (snd r) = chats w.
Proof.
  intros Hb Hf He. cbv zeta. unfold subscription_of in *. apply Z.ltb_lt in He.
  unfold_http. rewrite ?Hb. simpl.
  repeat (first [rewrite Hb | rewrite Hf | rewrite He | split_match]; simpl;
          try (intuition congruence)).
Qed.

Lemma checkMessageLimit_expired (w : World) (uid : string) (s : Subscription) :
  bypass_on w = false ->
  subscription_of uid w = Some s ->
  endDate s < clock w ->
  exists r w', Socket.checkMessageLimit uid w = (Ok r, w')
               /\ Socket.canSend r = false
               /\ subscriptions w' = subscriptions w.
Proof.
  intros Hb Hf He. unfold subscription_of in *. apply Z.ltb_lt in He.
  unfold_socket. rewrite Hb. simpl.
  destruct (subFindFails (faults w)); simpl; [eauto|].
  rewrite Hf. simpl. destruct (schemaStrict w); simpl; rewrite He; eauto.
Qed.

Lemma socket_expired_denied (w : World) (sid uid uuid : string)
    (receiverId message tempId : option string) (s : Subscription) :
  bypass_on w = false ->
  subscription_of uid w = Some s ->
  endDate s < clock w ->
  let w' := snd (Handlers.on_send_message sid uid receiverId message tempId uuid w) in
  subscriptions w' = subscriptions w
  /\ chats w' = chats w
  /\ exists kind text,
       outbox w' = (outbox w ++ [mkEmit (ToSocket sid) "error" (PError kind text)])%list.
Proof.
  intros Hb Hf He. cbv zeta. unfold subscription_of in *. apply Z.ltb_lt in He.
  unfold_socket. rewrite ?Hb. simpl.
  repeat (first [rewrite Hb | rewrite Hf | rewrite He | split_match]; simpl;
          try (intuition congruence));
    (split; [reflexivity|split; [reflexivity|]]); simpl_outbox; eauto.
Qed.

Lemma no_active_subscription (w : World) (uid : string) :
  (forall x, In x (subscriptions w) -> owned_by uid x = true -> endDate x < clock w) ->
  List.find (fun x => owned_by uid x && (clock w <? endDate x)) (subscriptions w) = None.
Proof.
  intros H. destruct (List.find _ _) as [x|] eqn:E; [|reflexivity].
  apply find_some in E. destruct E as [Hin Hp].
  apply andb_true_iff in Hp. destruct Hp as [Hown Hlt].
  apply Z.ltb_lt in Hlt. specialize (H x Hin Hown). lia.
Qed.

Lemma call_expired_denied (w : World) (uid t : string) :
  (forall x, In x (subscriptions w) -> owned_by uid x = true -> endDate x < clock w) ->
  http_status (startCallUsage uid (Some t) w) = 400
  \/ http_status (startCallUsage uid (Some t) w) = 403
  \/ http_status (startCallUsage uid (Some t) w) = 500.
Proof.
  intros H. apply no_active_subscription in H.
  unfold http_status, startCallUsage, ensureCallQuota, getActiveSubscription,
    Subscription_findOne_active.
  unfold_m. simpl.
  destruct (String.eqb t "audio"), (String.eqb t "video"); simpl; try (now left);
    (destruct (subFindFails (faults w)); simpl; [now right; right|]);
    rewrite H; now right; left.
Qed.

(** ** The socket [send_message] handler *)





(** [saveMessageToDB] debits first; nothing it does afterwards undoes it. *)
Lemma saveMessageToDB_debits (w : World) (fromId toId message messageId : string)
    (tempId : option string) (s : Subscription) :
  bypass_on w = false ->
  unique_ids w ->
  subscription_of fromId w = Some s ->
  subFindFails (faults w) = false ->
  subSaveFails (faults w) = false ->
  let r := Socket.saveMessageToDB fromId toId message messageId tempId w in
  (exists res, fst r = Ok res)
  /\ exists s', subscription_of fromId (snd r) = Some s'
                /\ messagesUsedTotal s' = Some (num0 (messagesUsedTotal s) + 1)%Q.
Proof.
  intros Hb Hu Hf Hff Hsf. cbv zeta. unfold subscription_of, unique_ids in *.
  assert (Hfind :
    List.find (owned_by fromId)
      (update_first (same_sub (Socket.count_message s))
         (write_totals_today (schemaStrict w) (Socket.count_message s)) (subscriptions w))
    = Some (write_totals_today (schemaStrict w) (Socket.count_message s) s))
    by (apply find_after_save; auto).
  unfold_socket.
  repeat (first [rewrite Hff | rewrite Hf | rewrite Hb | rewrite Hsf | split_match]; simpl);
    (split; [eauto|]);
    eexists; (split; [exact Hfind | reflexivity]).
Qed.

(** The handler around its two checks and the save: [w1] is the world after
    the validation, [w2] after the quota check. *)
Section SendMessage.
Variables (sid uid uuid receiver text : string) (tempId : option string).
Variables (w w1 w2 : World) (v : Socket.Validation) (lim : Socket.LimitCheck).
Hypothesis Hreceiver : String.eqb receiver "" = false.
Hypothesis Htext : blank (Some text) = false.
Hypothesis Hvalidate : Socket.validateBothUsersSubscription uid receiver w = (Ok v, w1).
Hypothesis Hvalid : Socket.valid v = true.
Hypothesis HcanChat : Socket.canChat v = true.
Hypothesis Hcheck : Socket.checkMessageLimit uid w1 = (Ok lim, w2).


Lemma on_send_message_not_saved (w3 : World) :
  Socket.canSend lim = true ->
  Socket.saveMessageToDB uid receiver text uuid tempId w2
  = (Ok (Socket.NotSaved tempId), w3) ->
  Handlers.on_send_message sid uid (Some receiver) (Some text) tempId uuid w
  = emit (ToSocket sid) "error" (PError "db_error" (Some (Plain "Failed to save message")))
      w3.
Proof.
  intros Hlim Hsave. simpl in Htext.
  unfold Handlers.on_send_message, bind, try_catch. simpl.
  rewrite Hreceiver, Htext. simpl.
  rewrite Hvalidate, Hvalid, HcanChat. simpl.
  rewrite Hcheck, Hlim. simpl.
  rewrite Hsave. unfold emit, log, modify. reflexivity.
Qed.

Lemma on_send_message_saved (w3 : World) (remaining : option Q) (savedTempId : option string) :
  Socket.canSend lim = true ->
  Socket.saveMessageToDB uid receiver text uuid tempId w2
  = (Ok (Socket.Saved remaining savedTempId), w3) ->
  let w' := snd (Handlers.on_send_message sid uid (Some receiver) (Some text) tempId uuid w) in
  outbox w'
  = (outbox w3
     ++ acknowledgement sid uid receiver text uuid savedTempId remaining
        :: deliveries sid uid receiver text uuid savedTempId w3)%list
  /\ subscriptions w' = subscriptions w3
  /\ chats w' = chats w3.
Proof.
  intros Hlim Hsave. simpl in Htext. cbv zeta.
  unfold Handlers.on_send_message, bind, try_catch. simpl.
  rewrite Hreceiver, Htext. simpl.
  rewrite Hvalidate, Hvalid, HcanChat. simpl.
  rewrite Hcheck, Hlim. simpl.
  rewrite Hsave. unfold acknowledgement, deliveries. unfold_m. simpl.
  destruct (onlineUsers w3 !! receiver); simpl; simpl_outbox;
    rewrite <- ?app_assoc; auto.
Qed.

End SendMessage.

(** ** The HTTP handler, one await at a time *)

Lemma Chat_findOne_bypass a b w r w' :
  Chat_findOne a b w = (r, w') -> bypass_on w' = bypass_on w.
Proof.
  unfold Chat_findOne. unfold_m. destruct (chatFindFails (faults w)); simpl;
    intros H; injection H as _ <-; reflexivity.
Qed.

Lemma Chat_create_bypass a b w r w' :
  Chat_create a b w = (r, w') -> bypass_on w' = bypass_on w.
Proof.
  unfold Chat_create. unfold_m. destruct (chatCreateFails (faults w)); simpl;
    intros H; injection H as _ <-; reflexivity.
Qed.

Lemma Chat_push_save_bypass c m w r w' :
  Chat_push_save c m w = (r, w') -> bypass_on w' = bypass_on w.
Proof.
  unfold Chat_push_save. unfold_m. destruct (chatSaveFails (faults w)); simpl;
    intros H; injection H as _ <-; reflexivity.
Qed.

Ltac frames :=
  match goal with
  | H : Chat_findOne _ _ ?w = (_, ?w') |- context [bypass_on ?w'] =>
      rewrite (Chat_findOne_bypass _ _ _ _ _ H)
  | H : Chat_create _ _ ?w = (_, ?w') |- context [bypass_on ?w'] =>
      rewrite (Chat_create_bypass _ _ _ _ _ H)
  | H : Chat_push_save _ _ ?w = (_, ?w') |- context [bypass_on ?w'] =>
      rewrite (Chat_push_save_bypass _ _ _ _ _ H)
  end.

(** A request that runs alone through its six awaits does what the handler
    does. *)
Lemma complete_is_sendMessage (w : World) (from uuid : string) (to message : option string) :
  exists r, Interleaving.complete 6 from uuid (Interleaving.start to message) w
            = (Ok (Interleaving.Done r), snd (Http.sendMessage from to message uuid w))
            /\ fst (Http.sendMessage from to message uuid w) = Ok r.
Proof.
  unfold Http.sendMessage, Interleaving.start.
  destruct to as [to|]; [|simpl; eauto].
  destruct (String.eqb to ""); [simpl; eauto|].
  destruct (blank message); [simpl; eauto|].
  unfold Interleaving.complete, Interleaving.step, Interleaving.step_body,
    Interleaving.finish.
  cbv [bind ret throw try_catch gets new_Date].
  repeat (first [frames | split_match]; simplify_eq; cbn [fst snd negb andb]); eauto.
Qed.
Lemma sendMessage_answers (w : World) (from uuid : string) (to message : option string) :
  exists r, fst (Http.sendMessage from to message uuid w) = Ok r.
Proof.
  destruct (complete_is_sendMessage w from uuid to message) as (r & _ & H). eauto.
Qed.

Lemma sendMessage_env (w : World) (from uuid : string) (to message : option string) :
  BYPASS_SUBSCRIPTION_CHECKS (snd (Http.sendMessage from to message uuid w))
  = BYPASS_SUBSCRIPTION_CHECKS w.
Proof.
  unfold_http. repeat (split_match; simpl); congruence.
Qed.

Lemma sendMessage_bypass (w : World) (from uuid : string) (to message : option string) :
  bypass_on (snd (Http.sendMessage from to message uuid w)) = bypass_on w.
Proof. unfold bypass_on. now rewrite sendMessage_env. Qed.

Lemma sendMessage_unique_ids (w : World) (from uuid : string) (to message : option string)
    (s : Subscription) :
  bypass_on w = false ->
  subscription_of from w = Some s ->
  unique_ids w ->
  unique_ids (snd (Http.sendMessage from to message uuid w)).
Proof.
  intros Hb Hf Hu. unfold unique_ids in *.
  destruct (sendMessage_enforced w from uuid to message s Hb Hf)
    as [(_ & _ & _ & Hsubs) | (_ & Hsubs)]; rewrite Hsubs; [|exact Hu].
  now rewrite map_update_first.
Qed.

Lemma granted_status (x : Res Response * World) (r : Response) :
  fst x = Ok r -> Interleaving.is_granted r = true <-> http_status x = 200.
Proof.
  intros H. unfold http_status. rewrite H. destruct r as [c b]. simpl.
  apply Z.eqb_eq.
Qed.

(** Granting one unit lowers the whole number of units left by one. *)
Lemma ceiling_step (allowed used : Q) :
  (used < allowed)%Q ->
  1 + Z.max 0 (Qceiling (allowed - (used + 1))) <= Z.max 0 (Qceiling (allowed - used)).
Proof.
  intros Hlt.
  pose proof (Qle_ceiling (allowed - used)) as Hc.
  pose proof (Qceiling_lt (allowed - (used + 1))) as Hc'.
  assert (H0 : 0 < Qceiling (allowed - used)).
  { rewrite Zlt_Qlt. change (inject_Z 0) with 0%Q. eapply Qlt_le_trans; [|exact Hc]. lra. }
  assert (H1 : Qceiling (allowed - (used + 1)) - 1 < Qceiling (allowed - used) - 1).
  { rewrite Zlt_Qlt. eapply Qlt_le_trans; [exact Hc'|].
    unfold Z.sub. rewrite inject_Z_plus, inject_Z_opp. change (inject_Z 1) with 1%Q. lra. }
  lia.
Qed.

Lemma ceiling_whole (allowed used : Q) (n u : Z) :
  (allowed == inject_Z n)%Q -> (used == inject_Z u)%Q ->
  Qceiling (allowed - used) = n - u.
Proof.
  intros Ha Hu.
  assert (H : (allowed - used == inject_Z (n - u))%Q).
  { unfold Z.sub. rewrite inject_Z_plus, inject_Z_opp. lra. }
  rewrite H. apply Qceiling_Z.
Qed.

Lemma serve_bounded (from : string) (allowed : Q) (reqs : list SendRequest) :
  forall (w : World) (s : Subscription),
    bypass_on w = false ->
    unique_ids w ->
    subscription_of from w = Some s ->
    messagesAllowed s = Some allowed ->
    exists rs, fst (serve from reqs w) = Ok rs
               /\ count_granted rs
                  <= Z.max 0 (Qceiling (allowed - num0 (messagesUsedTotal s))).
Proof.
  induction reqs as [|q rest IH]; intros w s Hb Hu Hf Ha.
  - exists []. split; [reflexivity|]. unfold count_granted. simpl. lia.
  - simpl. unfold bind at 1.
    destruct (sendMessage_answers w from (req_uuid q) (req_to q) (req_message q)) as [r Hr].
    pose proof (granted_status _ r Hr) as Hg.
    pose proof (sendMessage_bypass w from (req_uuid q) (req_to q) (req_message q)) as Hb'.
    pose proof (sendMessage_unique_ids w from (req_uuid q) (req_to q) (req_message q) s
                  Hb Hf Hu) as Hu'.
    pose proof (http_debit_within_allowance w from (req_uuid q) (req_to q) (req_message q)
                  s allowed Hb Hu Hf Ha) as [H200 Hother].
    destruct (Http.sendMessage from (req_to q) (req_message q) (req_uuid q) w)
      as [res w'] eqn:Hsend.
    simpl in Hr, Hb', Hu', H200, Hother. subst res. rewrite Hb in Hb'.
    destruct (Interleaving.is_granted r) eqn:Hgr.
    + destruct (H200 (proj1 Hg eq_refl)) as (s' & Hf' & Hused & Ha' & Hle).
      destruct (IH w' s' Hb' Hu' Hf' Ha') as (rs & Hrs & Hcount).
      exists (r :: rs). unfold bind.
      destruct (serve from rest w') as [x w'']. simpl in Hrs. subst x.
      split; [reflexivity|].
      unfold count_granted in *. simpl. rewrite Hgr. simpl length.
      rewrite Hused in Hcount. simpl num0 in Hcount.
      pose proof (ceiling_step allowed (num0 (messagesUsedTotal s)) Hle). lia.
    + assert (Hne : http_status (Ok r, w') <> 200)
        by (intros H; apply Hg in H; congruence).
      specialize (Hother Hne).
      assert (Hf' : subscription_of from w' = Some s)
        by (unfold subscription_of in *; now rewrite Hother).
      destruct (IH w' s Hb' Hu' Hf' Ha) as (rs & Hrs & Hcount).
      exists (r :: rs). unfold bind.
      destruct (serve from rest w') as [x w'']. simpl in Hrs. subst x.
      split; [reflexivity|].
      unfold count_granted in *. simpl. rewrite Hgr. exact Hcount.
Qed.
(** ** Read receipts *)

Lemma set_first_read_marks (ids : list string) (c : Chat) :
  marks_first ids c (Socket.set_first_read ids c).
Proof.
  unfold Socket.set_first_read.
  destruct (update_first_shape (Socket.is_read_target ids) Socket.mark_read (messages c))
    as [-> | (pre & m & post & Hl & Hpre & Hm & ->)].
  - left. now destruct c.
  - right. exists pre, m, post. repeat split; auto.
    + eapply Forall_impl; [exact Hpre|]. cbv beta. intros x Hx.
      unfold Socket.is_read_target in Hx. now apply bool_decide_eq_false in Hx.
    + unfold Socket.is_read_target in Hm. now apply bool_decide_eq_true in Hm.
Qed.

Lemma filter_length_app {A} (p : A -> bool) (l k : list A) :
  length (List.filter p (l ++ k)%list)
  = (length (List.filter p l) + length (List.filter p k))%nat.
Proof. rewrite List.filter_app. apply length_app. Qed.

Lemma marks_first_count (ids : list string) (c c' : Chat) :
  marks_first ids c c' -> (read_count c' <= S (read_count c))%nat.
Proof.
  intros [-> | (pre & m & post & Hl & _ & _ & ->)]; [lia|].
  unfold read_count. simpl. rewrite Hl, !filter_length_app. simpl.
  destruct (is_read m); simpl; lia.
Qed.

Lemma updateMany_marks (ids : list string) (p : Chat -> bool) (l : list Chat) :
  Forall2 (marks_first ids) l
    (map (fun c => if p c then Socket.set_first_read ids c else c) l).
Proof.
  induction l as [|c r IH]; simpl; constructor; auto.
  destruct (p c); [apply set_first_read_marks | now left].
Qed.

Lemma marks_first_refl (ids : list string) (l : list Chat) :
  Forall2 (marks_first ids) l l.
Proof. induction l; constructor; auto. now left. Qed.

Lemma updateMany_same (ids : list string) (strict : bool) (p : Chat -> bool)
    (l : list Chat) :
  Forall2 (marks_first ids) l
    (map (fun c => if p c
                   then (if strict then fun c => c else Socket.set_first_read ids) c
                   else c) l).
Proof.
  induction l as [|c r IH]; simpl; constructor; auto.
  destruct (p c); [|now left]. destruct strict; [now left | apply set_first_read_marks].
Qed.

Lemma mark_read_effect (w : World) (uid senderId : string) (messageIds : list string) :
  let w' := snd (Handlers.on_mark_messages_read uid senderId messageIds w) in
  Forall2 (marks_first messageIds) (chats w) (chats w')
  /\ outbox w' = (outbox w ++ read_notice uid senderId messageIds w)%list.
Proof.
  cbv zeta. unfold Handlers.on_mark_messages_read, Socket.markMessagesAsRead,
    Socket.Chat_updateMany, read_notice.
  unfold_m. simpl.
  destruct (chatUpdateFails (faults w)); simpl;
    destruct (onlineUsers w !! senderId); simpl;
    (split; [first [apply marks_first_refl | apply updateMany_marks | apply updateMany_same]|]);
    simpl_outbox; reflexivity.
Qed.

(** ** Presence *)

Lemma disconnect_broadcasts (w : World) (sid uid : string) (e : OnlineEntry) :
  onlineUsers w !! uid = Some e ->
  let w' := snd (Handlers.on_disconnect sid uid w) in
  outbox w' = (outbox w ++ [mkEmit (Broadcast sid) "user_offline" (PPresence uid (clock w))])%list
  /\ timers w' = (timers w ++ [mkTimer (clock w + 30000) (TRemoveUser uid)])%list
  /\ onlineUsers w' !! uid = Some (Handlers.go_offline (clock w) e).
Proof.
  intros H. cbv zeta. unfold Handlers.on_disconnect. unfold_m. simpl. rewrite H. simpl.
  split; [simpl_outbox; reflexivity|]. split; [reflexivity|]. apply lookup_insert_eq.
Qed.

Lemma connection_keeps_timers (w : World) (sid uid name : string) :
  timers (snd (Handlers.on_connection sid uid name w)) = timers w.
Proof.
  unfold Handlers.on_connection. unfold_m. simpl.
  repeat (split_match; simpl); reflexivity.
Qed.

Lemma presence_last_socket_offline (st : Presence.State) (uid sid : string)
    (sockets : gset string) (e : Presence.Entry) :
  Presence.userSockets st !! uid = Some sockets ->
  sockets ∖ {[sid]} = ∅ ->
  Presence.onlineUsers st !! uid = Some e ->
  Presence.sent (Presence.handleDisconnection uid sid st)
  = (Presence.sent st
     ++ [mkEmit ToAll "user_offline" (PPresence uid (Presence.now st))])%list.
Proof.
  intros Hs Hlast He. unfold Presence.handleDisconnection.
  rewrite Hs, Hlast. simpl. rewrite He. reflexivity.
Qed.


Lemma presence_other_socket_silent (st : Presence.State) (uid sid : string)
    (sockets : gset string) :
  Presence.userSockets st !! uid = Some sockets ->
  sockets ∖ {[sid]} <> ∅ ->
  Presence.sent (Presence.handleDisconnection uid sid st) = Presence.sent st.
Proof.
  intros Hs Hleft. unfold Presence.handleDisconnection. rewrite Hs.
  rewrite bool_decide_eq_false_2; [reflexivity|].
  intros Hz. apply Hleft. now apply size_empty_inv, leibniz_equiv in Hz.
Qed.
(** ** The course of a [send_message] *)








(** *** The steps of a send that goes through *)




(** * The claims *)

Lemma sample_ids_unique (flag : option string) (f : Faults) (a b c : Subscription) :
  sub_id a <> sub_id b -> sub_id a <> sub_id c -> sub_id b <> sub_id c ->
  unique_ids (sample_world flag f [a; b; c]).
Proof.
  intros Hab Hac Hbc. unfold unique_ids. simpl.
  repeat constructor; rewrite ?list_elem_of_In; simpl; intuition congruence.
Qed.

(** ** C1: usage counters and allowances *)

(** C1, as stated, fails for the call-stop path: with 60 audio seconds
    allowed and 50 used, reporting 20 elapsed seconds is accepted and leaves
    the counter at 70. *)
Lemma stop_call_overdraws :
  let w := sample_world None noFaults [alice_audio; bob; carol] in
  let r := stopCallUsage "alice" (Some "audio") (Some (20 # 1)%Q) w in
  audioTimeAllowed alice_audio = Some 60%Q
  /\ audioTimeUsedTotal alice_audio = Some 50%Q
  /\ http_status r = 200
  /\ subscription_of "alice" (snd r) = Some (inc_audio 20 alice_audio)
  /\ audioTimeUsedTotal (inc_audio 20 alice_audio) = Some 70%Q.
Proof. vm_compute. repeat split; reflexivity. Qed.

(** The allowance need not be a whole number: the plan endpoints keep any
    finite number that is not negative.  With an allowance of one and a
    half messages and one used, the HTTP handler grants a send and the
    counter ends at 2. *)
Example fractional_allowance_overshoots :
  let alice := subscription_for "sub-alice" "alice" 5000 1 (Some (3 # 2)%Q) in
  let w := sample_world None noFaults [alice; bob; carol] in
  let r := Http.sendMessage "alice" (Some "bob") (Some "hello") "0123456789" w in
  http_status r = 200
  /\ option_map messagesUsedTotal (subscription_of "alice" (snd r)) = Some (Some 2%Q).
Proof. vm_compute. split; reflexivity. Qed.

(** C1 (amended). On the HTTP path with enforcement on and a numeric
    [messagesAllowed], a send is granted only while [messagesUsedTotal] is
    below the allowance, and a granted send leaves the counter one higher:
    within the allowance when the allowance and the counter are whole
    numbers, less than one above it in general.  Once the counter has
    reached the allowance no send is granted, and a send that is not granted
    leaves every subscription as it was.  Call-stop reporting adds the
    reported whole seconds to the counter of the call type without comparing
    it with the allowance. *)
Theorem debit_bounds (w : World) (uid : string) (s : Subscription) :
  subscription_of uid w = Some s ->
  (forall (to message : option string) (uuid : string) (allowed : Q),
      bypass_on w = false ->
      unique_ids w ->
      messagesAllowed s = Some allowed ->
      let r := Http.sendMessage uid to message uuid w in
      let used := num0 (messagesUsedTotal s) in
      (http_status r = 200 ->
       exists s', subscription_of uid (snd r) = Some s'
                  /\ messagesUsedTotal s' = Some (used + 1)%Q
                  /\ messagesAllowed s' = Some allowed
                  /\ (used < allowed)%Q
                  /\ forall n u : Z,
                       (allowed == inject_Z n)%Q -> (used == inject_Z u)%Q ->
                       (used + 1 <= allowed)%Q)
      /\ ((allowed <= used)%Q -> http_status r <> 200)
      /\ (http_status r <> 200 -> subscriptions (snd r) = subscriptions w))
  /\ (forall (t : string) (e : option Q),
         t = "audio" \/ t = "video" ->
         subSaveFails (faults w) = false ->
         0 < elapsed_secs e ->
         let r := stopCallUsage uid (Some t) e w in
         http_status r = 200
         /\ exists s', subscription_of uid (snd r) = Some s'
                       /\ call_used t s'
                          = Some (num0 (call_used t s) + inject_Z (elapsed_secs e))%Q
                       /\ call_allowed t s' = call_allowed t s).
Proof.
  intros Hf. split.
  - intros to message uuid allowed Hb Hu Ha. cbv zeta.
    destruct (http_debit_within_allowance w uid uuid to message s allowed Hb Hu Hf Ha)
      as [H200 Hother].
    split; [|split].
    + intros H. destruct (H200 H) as (s' & Hs' & Hused & Ha' & Hlt).
      exists s'. repeat split; auto.
      intros n u Hn Hu'. rewrite Hn, Hu' in *.
      rewrite <- Zlt_Qlt in Hlt.
      change 1%Q with (inject_Z 1). rewrite <- inject_Z_plus, <- Zle_Qle. lia.
    + intros Hle H.
      destruct (sendMessage_enforced w uid uuid to message s Hb Hf)
        as [(_ & _ & Hex & _) | ([Hc | [Hc | Hc]] & _)];
        [|cbv zeta in Hc; congruence..].
      rewrite (exhausted_at_allowance s allowed Ha Hle) in Hex. discriminate.
    + exact Hother.
  - intros t e Ht Hfault Hpos. now apply stop_call_adds.
Qed.

Lemma debit_bounds_witness :
  let w := sample_world None noFaults [alice_last_unit; bob; carol] in
  (exists s', subscription_of "alice"
                (snd (Http.sendMessage "alice" (Some "bob") (Some "hello") "0123456789" w))
              = Some s'
              /\ messagesUsedTotal s' = Some (0 + 1)%Q
              /\ messagesAllowed s' = Some 1%Q)
  /\ http_status (stopCallUsage "alice" (Some "video") (Some (7 # 2)%Q) w) = 200.
Proof.
  set (w := sample_world None noFaults [alice_last_unit; bob; carol]). cbv zeta.
  destruct (debit_bounds w "alice" alice_last_unit eq_refl) as [Hsend Hstop].
  split.
  - destruct (Hsend (Some "bob") (Some "hello") "0123456789" 1%Q eq_refl) as (H200 & _).
    + apply sample_ids_unique; vm_compute; discriminate.
    + reflexivity.
    + destruct H200 as (s' & Hs' & Hused & Ha & _); [vm_compute; reflexivity|].
      exists s'. repeat split; assumption.
  - refine (proj1 (Hstop "video" (Some (7 # 2)%Q) _ eq_refl _)).
    + now right.
    + vm_compute. reflexivity.
Defined.
(** ** C2: sends contending for the last unit *)

(** C2, as stated, fails: two HTTP sends of one sender, interleaved at their
    awaits while one unit of quota remains, both read the counter before
    either writes it; both are granted, and the counter ends at one. *)
Lemma interleaved_sends_both_granted :
  let w := sample_world None noFaults [alice_last_unit; bob; carol] in
  let requests :=
    [Interleaving.mkThread "alice" "aaaaaaaa" (Interleaving.start (Some "bob") (Some "hello"));
     Interleaving.mkThread "alice" "bbbbbbbb" (Interleaving.start (Some "carol") (Some "hi"))] in
  let schedule := [0; 1; 0; 1; 0; 1; 0; 1; 0; 1; 0; 1]%nat in
  messagesAllowed alice_last_unit = Some 1%Q
  /\ messagesUsedTotal alice_last_unit = Some 0%Q
  /\ exists ts w',
       Interleaving.run_schedule schedule requests w = (Ok ts, w')
       /\ Interleaving.granted ts = 2%nat
       /\ subscription_of "alice" w' = Some (debit_message alice_last_unit)
       /\ map (fun c => length (messages c)) (chats w') = [1; 1]%nat.
Proof.
  cbv zeta. split; [reflexivity|]. split; [reflexivity|].
  eexists. eexists. split; [vm_compute; reflexivity|].
  vm_compute. repeat split; reflexivity.
Qed.

(** C2 (amended). When the HTTP sends of one sender are handled one after
    the other, each to its end, with enforcement on and a numeric allowance
    [N], the number of granted sends never exceeds what was left of [N] at
    the start, rounded up to a whole number: what was left itself when [N]
    and the counter are whole numbers. *)
Theorem sequential_sends_within_allowance (from : string) (allowed : Q)
    (reqs : list SendRequest) (w : World) (s : Subscription) :
  bypass_on w = false ->
  unique_ids w ->
  subscription_of from w = Some s ->
  messagesAllowed s = Some allowed ->
  exists rs, fst (serve from reqs w) = Ok rs
             /\ count_granted rs
                <= Z.max 0 (Qceiling (allowed - num0 (messagesUsedTotal s)))
             /\ forall n u : Z,
                  (allowed == inject_Z n)%Q ->
                  (num0 (messagesUsedTotal s) == inject_Z u)%Q ->
                  count_granted rs <= Z.max 0 (n - u).
Proof.
  intros Hb Hu Hf Ha.
  destruct (serve_bounded from allowed reqs w s Hb Hu Hf Ha) as (rs & Hrs & Hcount).
  exists rs. split; [exact Hrs|]. split; [exact Hcount|].
  intros n u Hn Hu'. now rewrite (ceiling_whole _ _ n u Hn Hu') in Hcount.
Qed.

Lemma sequential_sends_within_allowance_witness :
  exists rs,
    fst (serve "alice"
           [mkSendRequest (Some "bob") (Some "hello") "aaaaaaaa";
            mkSendRequest (Some "carol") (Some "hi") "bbbbbbbb"]
           (sample_world None noFaults [alice_last_unit; bob; carol])) = Ok rs
    /\ count_granted rs <= Z.max 0 (1 - 0).
Proof.
  destruct (sequential_sends_within_allowance "alice" 1%Q
              [mkSendRequest (Some "bob") (Some "hello") "aaaaaaaa";
               mkSendRequest (Some "carol") (Some "hi") "bbbbbbbb"]
              (sample_world None noFaults [alice_last_unit; bob; carol]) alice_last_unit)
    as (rs & Hrs & _ & Hwhole).
  - reflexivity.
  - apply sample_ids_unique; vm_compute; discriminate.
  - reflexivity.
  - reflexivity.
  - exists rs. split; [exact Hrs|]. apply Hwhole; reflexivity.
Defined.

Example sequential_sends_example :
  map Interleaving.is_granted
    (match fst (serve "alice"
                  [mkSendRequest (Some "bob") (Some "hello") "aaaaaaaa";
                   mkSendRequest (Some "carol") (Some "hi") "bbbbbbbb"]
                  (sample_world None noFaults [alice_last_unit; bob; carol])) with
     | Ok rs => rs
     | Throw => []
     end)
  = [true; false].
Proof. vm_compute. reflexivity. Qed.

(** With an allowance of one and a half messages and none used, two sends
    in a row are granted and the third is refused. *)
Example sequential_sends_fractional :
  map Interleaving.is_granted
    (match fst (serve "alice"
                  [mkSendRequest (Some "bob") (Some "one") "aaaaaaaa";
                   mkSendRequest (Some "bob") (Some "two") "bbbbbbbb";
                   mkSendRequest (Some "bob") (Some "three") "cccccccc"]
                  (sample_world None noFaults
                     [subscription_for "sub-alice" "alice" 5000 0 (Some (3 # 2)%Q);
                      bob; carol])) with
     | Ok rs => rs
     | Throw => []
     end)
  = [true; true; false]
  /\ Qceiling ((3 # 2) - 0) = 2.
Proof. vm_compute. split; reflexivity. Qed.

(** ** C3: a send whose persistence fails *)

(** C3, as stated, fails: when the chat document cannot be saved, the socket
    handler reports [db_error] and leaves the counter incremented. *)
Lemma failed_save_is_not_refunded :
  let w := sample_world None persistence_down [alice_last_unit; bob; carol] in
  let w' := snd (Handlers.on_send_message "socket-1" "alice" (Some "bob") (Some "hello")
                   None "m-1" w) in
  messagesUsedTotal alice_last_unit = Some 0%Q
  /\ option_map messagesUsedTotal (subscription_of "alice" w') = Some (Some 1%Q)
  /\ outbox w' = [error_event "socket-1" "db_error" (Some (Plain "Failed to save message"))]
  /\ map messages (chats w') = [[]].
Proof. vm_compute. repeat split; reflexivity. Qed.

(** C3 (amended). On the socket path, when the save of the message fails
    after the counter was incremented, the handler emits a [db_error] event
    and nothing else: no refund is issued and [messagesUsedTotal] stays one
    above its value before the reservation.  On the HTTP path the counter is
    only incremented after the message was persisted: a request that
    answers 500 has changed no subscription. *)
Theorem failed_persistence_keeps_debit
    (sid uid uuid receiver text : string) (tempId : option string)
    (w w1 w2 w3 : World) (v : Socket.Validation) (lim : Socket.LimitCheck)
    (s : Subscription) :
  String.eqb receiver "" = false ->
  blank (Some text) = false ->
  Socket.validateBothUsersSubscription uid receiver w = (Ok v, w1) ->
  Socket.valid v = true ->
  Socket.canChat v = true ->
  Socket.checkMessageLimit uid w1 = (Ok lim, w2) ->
  Socket.canSend lim = true ->
  bypass_on w2 = false ->
  unique_ids w2 ->
  subscription_of uid w2 = Some s ->
  subFindFails (faults w2) = false ->
  subSaveFails (faults w2) = false ->
  Socket.saveMessageToDB uid receiver text uuid tempId w2
  = (Ok (Socket.NotSaved tempId), w3) ->
  let w' := snd (Handlers.on_send_message sid uid (Some receiver) (Some text) tempId uuid w) in
  (outbox w' = (outbox w3
                ++ [error_event sid "db_error" (Some (Plain "Failed to save message"))])%list
   /\ subscriptions w' = subscriptions w3
   /\ exists s', subscription_of uid w' = Some s'
                 /\ messagesUsedTotal s' = Some (num0 (messagesUsedTotal s) + 1)%Q)
  /\ (forall (to message : option string) (id : string) (s0 : Subscription),
         bypass_on w = false ->
         subscription_of uid w = Some s0 ->
         http_status (Http.sendMessage uid to message id w) = 500 ->
         subscriptions (snd (Http.sendMessage uid to message id w)) = subscriptions w).
Proof.
  intros Hreceiver Htext Hvalidate Hvalid HcanChat Hcheck Hlim Hb Hu Hf Hff Hsf Hsave.
  cbv zeta. split.
  - rewrite (on_send_message_not_saved sid uid uuid receiver text tempId w w1 w2 v lim
               Hreceiver Htext Hvalidate Hvalid HcanChat Hcheck w3 Hlim Hsave).
    destruct (saveMessageToDB_debits w2 uid receiver text uuid tempId s Hb Hu Hf Hff Hsf)
      as [_ (s' & Hs' & Hused)].
    rewrite Hsave in Hs'. simpl in Hs'.
    split; [simpl_outbox; reflexivity|]. split; [reflexivity|].
    exists s'. split; [exact Hs' | exact Hused].
  - intros to message id s0 Hb0 Hf0 H500.
    destruct (sendMessage_enforced w uid id to message s0 Hb0 Hf0)
      as [(H200 & _) | (_ & Hsubs)]; [|exact Hsubs].
    cbv zeta in H200. rewrite H200 in H500. discriminate.
Qed.

Lemma failed_persistence_keeps_debit_witness :
  let w := sample_world None persistence_down [alice_last_unit; bob; carol] in
  let w' := snd (Handlers.on_send_message "socket-1" "alice" (Some "bob") (Some "hello")
                   None "m-1" w) in
  exists s', subscription_of "alice" w' = Some s'
             /\ messagesUsedTotal s' = Some (0 + 1)%Q.
Proof.
  cbv zeta.
  set (w := sample_world None persistence_down [alice_last_unit; bob; carol]).
  destruct (Socket.validateBothUsersSubscription "alice" "bob" w) as [rv w1] eqn:Hv.
  assert (Hv' := Hv). vm_compute in Hv'. injection Hv' as <- <-.
  match type of Hv with _ = (_, ?x) => set (w1 := x) in * end.
  destruct (Socket.checkMessageLimit "alice" w1) as [rl w2] eqn:Hl.
  assert (Hl' := Hl). vm_compute in Hl'. injection Hl' as <- <-.
  match type of Hl with _ = (_, ?x) => set (w2 := x) in * end.
  destruct (Socket.saveMessageToDB "alice" "bob" "hello" "m-1" None w2) as [rs w3] eqn:Hs.
  assert (Hs' := Hs). vm_compute in Hs'. injection Hs' as <- <-.
  refine (proj2 (proj2 (proj1
    (failed_persistence_keeps_debit "socket-1" "alice" "m-1" "bob" "hello" None
       w w1 w2 _ _ _ alice_last_unit
       eq_refl eq_refl Hv eq_refl eq_refl Hl eq_refl _ _ _ _ _ Hs)))).
  - vm_compute. reflexivity.
  - unfold unique_ids. simpl.
    repeat constructor; rewrite ?list_elem_of_In; simpl; intuition discriminate.
  - vm_compute. reflexivity.
  - vm_compute. reflexivity.
  - vm_compute. reflexivity.
Defined.
(** ** C4: the course of a [send_message] *)




(** A send that goes through, with the recipient registered: the lookups,
    the debit, the write, the acknowledgement, the two deliveries. *)
Example send_message_trace :
  let w := snd (Handlers.on_connection "s2" "bob" "Bob"
                  (sample_world None noFaults [alice_last_unit; bob; carol])) in
  added w (snd (Handlers.on_send_message "s1" "alice" (Some "bob") (Some " hello ")
                  None "m-1" w))
  = [SubFind "alice"; SubFind "bob"; SubFind "alice"; SubFind "alice";
     SubWrite "sub-alice"; ChatFind "alice" "bob"; ChatCreate 1; ChatWrite 1;
     Emitted (mkEmit (ToSocket "s1") "message_sent"
                (PMessage "m-1" "alice" "bob" "hello" None (Some None)));
     Emitted (mkEmit (ToRoom "user_bob") "new_message"
                (PMessage "m-1" "alice" "bob" "hello" None None));
     Emitted (mkEmit (RoomExcept "chat_alice_bob" "s1") "new_message"
                (PMessage "m-1" "alice" "bob" "hello" None None))].
Proof. vm_compute. reflexivity. Qed.

(** ** C5: expired subscriptions *)

(** C5, as stated, fails: with [BYPASS_SUBSCRIPTION_CHECKS] set to ['true']
    both message paths grant a send by a user whose subscription has ended. *)
Lemma bypass_grants_expired :
  let w := sample_world (Some "true") noFaults [alice_expired; bob; carol] in
  endDate alice_expired < clock w
  /\ http_status (Http.sendMessage "alice" (Some "bob") (Some "hello") "0123456789" w) = 200
  /\ map event
       (outbox (snd (Handlers.on_send_message "socket-1" "alice" (Some "bob") (Some "hello")
                       None "m-1" w)))
     = ["message_sent"; "new_message"].
Proof. vm_compute. repeat split; reflexivity. Qed.

(** C5 (amended). Unless [BYPASS_SUBSCRIPTION_CHECKS] is ['true'], a user
    whose subscription has ended is denied on both message paths, whatever
    allowance is left: the HTTP handler answers 400 or 403 and the socket
    handler emits one [error] event, and neither changes a subscription or a
    chat.  The call-start check, which has no bypass, denies a user all of
    whose subscriptions have ended. *)
Theorem expired_subscription_denied (w : World) (uid : string) (s : Subscription) :
  subscription_of uid w = Some s ->
  endDate s < clock w ->
  (bypass_on w = false ->
   forall (to message : option string) (uuid : string),
     let r := Http.sendMessage uid to message uuid w in
     (http_status r = 400 \/ http_status r = 403)
     /\ subscriptions (snd r) = subscriptions w
     /\ chats (snd r) = chats w)
  /\ (bypass_on w = false ->
      forall (sid uuid : string) (receiverId message tempId : option string),
        let w' := snd (Handlers.on_send_message sid uid receiverId message tempId uuid w) in
        subscriptions w' = subscriptions w
        /\ chats w' = chats w
        /\ exists kind text, outbox w' = (outbox w ++ [error_event sid kind text])%list)
  /\ (bypass_on w = false ->
      exists r w', Socket.checkMessageLimit uid w = (Ok r, w')
                   /\ Socket.canSend r = false)
  /\ ((forall x, In x (subscriptions w) -> owned_by uid x = true -> endDate x < clock w) ->
      forall t : string,
        http_status (startCallUsage uid (Some t) w) = 400
        \/ http_status (startCallUsage uid (Some t) w) = 403
        \/ http_status (startCallUsage uid (Some t) w) = 500).
Proof.
  intros Hf He. split; [|split; [|split]].
  - intros Hb to message uuid. now apply http_expired_denied with (s := s).
  - intros Hb sid uuid receiverId message tempId.
    now apply socket_expired_denied with (s := s).
  - intros Hb.
    destruct (checkMessageLimit_expired w uid s Hb Hf He) as (r & w' & Hr & Hc & _).
    eauto.
  - intros Hall t. now apply call_expired_denied.
Qed.

Lemma expired_subscription_denied_witness :
  let w := sample_world None noFaults [alice_expired; bob; carol] in
  (http_status (Http.sendMessage "alice" (Some "bob") (Some "hello") "0123456789" w) = 400
   \/ http_status (Http.sendMessage "alice" (Some "bob") (Some "hello") "0123456789" w) = 403)
  /\ (http_status (startCallUsage "alice" (Some "audio") w) = 400
      \/ http_status (startCallUsage "alice" (Some "audio") w) = 403
      \/ http_status (startCallUsage "alice" (Some "audio") w) = 500).
Proof.
  set (w := sample_world None noFaults [alice_expired; bob; carol]). cbv zeta.
  assert (He : endDate alice_expired < clock w) by (vm_compute; reflexivity).
  destruct (expired_subscription_denied w "alice" alice_expired eq_refl He)
    as (Hhttp & _ & _ & Hcall).
  split.
  - exact (proj1 (Hhttp eq_refl (Some "bob") (Some "hello") "0123456789")).
  - apply Hcall. intros x Hx Hown. simpl in Hx.
    destruct Hx as [<- | [<- | [<- | []]]];
      [vm_compute; reflexivity | vm_compute in Hown; discriminate
      | vm_compute in Hown; discriminate].
Defined.

(** ** C6: which limit a send is checked against *)

(** C6 fails on the socket path.  A sender who has used the one message of
    the subscription period is refused by the HTTP handler
    ([MESSAGE_LIMIT_EXCEEDED]); the socket handler checks the plan's
    [messagesPerDay] against [messagesUsedToday] instead, finds no daily
    limit, sends the message and raises [messagesUsedTotal] to 2. *)
Theorem socket_check_ignores_total_allowance :
  let w := sample_world None noFaults [alice_spent; bob; carol] in
  let w' := snd (Handlers.on_send_message "socket-1" "alice" (Some "bob") (Some "hello")
                   None "m-1" w) in
  messagesAllowed alice_spent = Some 1%Q
  /\ messagesUsedTotal alice_spent = Some 1%Q
  /\ fst (Http.sendMessage "alice" (Some "bob") (Some "hello") "0123456789" w)
     = Ok (Json 403 (BLimit (Some 1%Q) 1 0))
  /\ fst (Socket.checkMessageLimit "alice" w)
     = Ok (Socket.mkLimitCheck true (Some (Plain "Unlimited messages")) None)
  /\ map event (outbox w') = ["message_sent"; "new_message"]
  /\ option_map messagesUsedTotal (subscription_of "alice" w') = Some (Some 2%Q).
Proof. vm_compute. repeat split; reflexivity. Qed.

(** Where the schemas declare the daily paths, the daily check reads
    neither [messagesAllowed] nor [messagesUsedTotal]: with a plan limit of
    three messages a day and none sent today it grants, whatever the two
    total fields hold. *)
Lemma checkMessageLimit_daily (w : World) (uid : string) (s : Subscription) :
  bypass_on w = false ->
  schemaStrict w = false ->
  subFindFails (faults w) = false ->
  subscription_of uid w = Some s ->
  clock w <= endDate s ->
  messagesPerDay s = Some 3%Q ->
  lastMessageDate s = Some (Socket.day_of (clock w)) ->
  messagesUsedToday s = Some 0%Q ->
  fst (Socket.checkMessageLimit uid w) = Ok (Socket.mkLimitCheck true None (Some (3 - 0)%Q)).
Proof.
  intros Hb Hst Hff Hf He Hd Hl Hu. unfold subscription_of in Hf. apply Z.ltb_ge in He.
  unfold_socket. rewrite Hb, Hff. simpl. rewrite Hf, Hst. simpl. rewrite He, Hd. simpl.
  rewrite Hl. rewrite bool_decide_eq_true_2 by reflexivity. simpl. rewrite Hu.
  reflexivity.
Qed.

(** ** C7: null and zero allowances *)

(** C7, as stated, fails for calls: an audio allowance that is [null] is read
    as 0 and the call-start check denies, with nothing used. *)
Lemma null_call_allowance_denied :
  let w := sample_world None noFaults [alice_null_audio; bob; carol] in
  audioTimeAllowed alice_null_audio = None
  /\ audioTimeUsedTotal alice_null_audio = Some 0%Q
  /\ clock w < endDate alice_null_audio
  /\ fst (startCallUsage "alice" (Some "audio") w)
     = Ok (Json 403 (BCallDenied "AUDIO_LIMIT_REACHED")).
Proof. vm_compute. repeat split; reflexivity. Qed.

(** C7 (amended). On the HTTP message path with enforcement on, a
    [messagesAllowed] of [null] is unlimited (the send is granted whatever
    was used) and a [messagesAllowed] of 0 denies every send.  For audio and
    video seconds the call-start check reads a [null] allowance as 0: both
    [null] and 0 deny. *)
Theorem allowance_null_and_zero (w : World) (uid : string) (s : Subscription) :
  bypass_on w = false ->
  (forall (to text uuid : string) (peer : Subscription),
      subscription_of uid w = Some s ->
      messagesAllowed s = None ->
      faults w = noFaults ->
      String.eqb to "" = false ->
      blank (Some text) = false ->
      subscription_of to w = Some peer ->
      clock w <= endDate s ->
      clock w <= endDate peer ->
      http_status (Http.sendMessage uid (Some to) (Some text) uuid w) = 200)
  /\ (forall (to message : option string) (uuid : string) (allowed : Q),
         subscription_of uid w = Some s ->
         messagesAllowed s = Some allowed ->
         (allowed == 0)%Q ->
         (0 <= num0 (messagesUsedTotal s))%Q ->
         let r := Http.sendMessage uid to message uuid w in
         (http_status r = 400 \/ http_status r = 403)
         /\ subscriptions (snd r) = subscriptions w
         /\ chats (snd r) = chats w)
  /\ (forall t : string,
         t = "audio" \/ t = "video" ->
         List.find (fun x => owned_by uid x && (clock w <? endDate x)) (subscriptions w)
         = Some s ->
         (num0 (call_allowed t s) == 0)%Q ->
         (0 <= num0 (call_used t s))%Q ->
         http_status (startCallUsage uid (Some t) w) = 403
         \/ http_status (startCallUsage uid (Some t) w) = 500).
Proof.
  intros Hb. split; [|split].
  - intros to text uuid peer Hs Ha Hfa Hto Htext Hp Hes Hep.
    now apply http_unlimited_granted with (s := s) (peer := peer).
  - intros to message uuid allowed Hs Ha Hz Hu.
    now apply http_zero_denied with (s := s) (allowed := allowed).
  - intros t Ht Hs Ha Hu. now apply call_no_allowance_denied with (s := s).
Qed.

Lemma allowance_null_and_zero_witness :
  http_status (Http.sendMessage "alice" (Some "bob") (Some "hello") "0123456789"
                 (sample_world None noFaults [alice_unlimited; bob; carol])) = 200
  /\ (http_status (Http.sendMessage "alice" (Some "bob") (Some "hello") "0123456789"
                     (sample_world None noFaults [alice_disabled; bob; carol])) = 400
      \/ http_status (Http.sendMessage "alice" (Some "bob") (Some "hello") "0123456789"
                        (sample_world None noFaults [alice_disabled; bob; carol])) = 403)
  /\ (http_status (startCallUsage "alice" (Some "video")
                     (sample_world None noFaults [alice_null_audio; bob; carol])) = 403
      \/ http_status (startCallUsage "alice" (Some "video")
                        (sample_world None noFaults [alice_null_audio; bob; carol])) = 500).
Proof.
  split; [|split].
  - refine (proj1 (allowance_null_and_zero
                     (sample_world None noFaults [alice_unlimited; bob; carol])
                     "alice" alice_unlimited eq_refl)
              "bob" "hello" "0123456789" bob eq_refl eq_refl eq_refl eq_refl eq_refl
              eq_refl _ _); vm_compute; discriminate.
  - refine (proj1 (proj1 (proj2 (allowance_null_and_zero
                     (sample_world None noFaults [alice_disabled; bob; carol])
                     "alice" alice_disabled eq_refl))
              (Some "bob") (Some "hello") "0123456789" 0%Q eq_refl eq_refl _ _)).
    + reflexivity.
    + vm_compute. discriminate.
  - refine (proj2 (proj2 (allowance_null_and_zero
                     (sample_world None noFaults [alice_null_audio; bob; carol])
                     "alice" alice_null_audio eq_refl))
              "video" _ eq_refl _ _).
    + now right.
    + reflexivity.
    + vm_compute. discriminate.
Defined.
(** ** C8: presence across a disconnection and a quick reconnection *)

(** C8, as stated, fails in both namespaces: a user who disconnects and
    connects again five seconds later has been announced offline at the
    moment of the disconnection, and in the chat namespace the removal
    scheduled by the disconnection is still pending after the reconnection. *)
Lemma reconnect_within_grace_still_broadcasts :
  let w' := snd (run [Connect "s1" "alice" "Alice"; Disconnect "s1" "alice";
                      Elapse 5000; Connect "s2" "alice" "Alice"]
                   (sample_world None noFaults [])) in
  let st' := Presence.handleConnection "alice" "s2"
               (Presence.tick 5000
                  (Presence.handleDisconnection "alice" "s1"
                     (Presence.handleConnection "alice" "s1" no_presence))) in
  emitted "user_offline" w'
  = [mkEmit (Broadcast "s1") "user_offline" (PPresence "alice" 1000)]
  /\ timers w' = [mkTimer 31000 (TRemoveUser "alice")]
  /\ Presence.offline_broadcasts "alice" st'
     = [mkEmit ToAll "user_offline" (PPresence "alice" 1000)].
Proof. vm_compute. repeat split; reflexivity. Qed.

(** C8 (amended). When a registered user disconnects from the chat
    namespace, [user_offline] is broadcast at once to the other sockets, the
    entry is kept with [isOnline] false, and only its removal from the
    namespace's maps is put off by 30 seconds.  In the presence namespace a
    disconnection that leaves the user another socket emits nothing, and
    the disconnection of the last socket emits [user_offline] at once. *)
Theorem disconnect_broadcasts_offline_at_once (w : World) (sid uid : string)
    (e : OnlineEntry) :
  onlineUsers w !! uid = Some e ->
  let w' := snd (Handlers.on_disconnect sid uid w) in
  (outbox w'
   = (outbox w ++ [mkEmit (Broadcast sid) "user_offline" (PPresence uid (clock w))])%list
   /\ timers w' = (timers w ++ [mkTimer (clock w + 30000) (TRemoveUser uid)])%list
   /\ onlineUsers w' !! uid = Some (Handlers.go_offline (clock w) e))
  /\ forall (st : Presence.State) (sockets : gset string),
       Presence.userSockets st !! uid = Some sockets ->
       (sockets ∖ {[sid]} <> ∅ ->
        Presence.sent (Presence.handleDisconnection uid sid st) = Presence.sent st)
       /\ (forall pe : Presence.Entry,
              sockets ∖ {[sid]} = ∅ ->
              Presence.onlineUsers st !! uid = Some pe ->
              Presence.sent (Presence.handleDisconnection uid sid st)
              = (Presence.sent st
                 ++ [mkEmit ToAll "user_offline" (PPresence uid (Presence.now st))])%list).
Proof.
  intros He. cbv zeta. split; [now apply disconnect_broadcasts|].
  intros st sockets Hs. split.
  - intros Hleft. now apply presence_other_socket_silent with (sockets := sockets).
  - intros pe Hlast Hpe. now apply presence_last_socket_offline with (sockets := sockets) (e := pe).
Qed.

Lemma disconnect_broadcasts_offline_at_once_witness :
  let w := snd (Handlers.on_connection "s1" "alice" "Alice" (sample_world None noFaults [])) in
  outbox (snd (Handlers.on_disconnect "s1" "alice" w))
  = (outbox w ++ [mkEmit (Broadcast "s1") "user_offline" (PPresence "alice" (clock w))])%list.
Proof.
  cbv zeta.
  refine (proj1 (proj1 (disconnect_broadcasts_offline_at_once _ "s1" "alice"
                          (mkOnlineEntry "s1" "Alice" 1000 true) _))).
  vm_compute. reflexivity.
Defined.

(** ** C10: read receipts *)

(** C10. Whatever list of ids a [mark_messages_read] request carries, the
    update changes each chat document in at most one place: a document is
    left as it was, or the first of its messages whose [petitionId] is in
    the list gets status ['read'], so that the number of read messages of a
    document grows by at most one.  The [messages_read] event sent to the
    sender, when online, carries the whole list. *)
Theorem mark_read_marks_at_most_one (w : World) (uid senderId : string)
    (messageIds : list string) :
  let w' := snd (Handlers.on_mark_messages_read uid senderId messageIds w) in
  Forall2 (marks_first messageIds) (chats w) (chats w')
  /\ Forall2 (fun c c' => (read_count c' <= S (read_count c))%nat) (chats w) (chats w')
  /\ outbox w' = (outbox w ++ read_notice uid senderId messageIds w)%list.
Proof.
  cbv zeta. destruct (mark_read_effect w uid senderId messageIds) as [Hm Ho].
  cbv zeta in Hm, Ho. split; [exact Hm|]. split; [|exact Ho].
  eapply Forall2_impl; [exact Hm|]. intros c c'. apply marks_first_count.
Qed.

(** Two messages of one conversation, both named in the request.  Under the
    schemas of [src/models], where [messageSchema] declares no [status],
    none is marked; where the path is declared the first is marked and the
    second is not.  The notification names both either way. *)
Example mark_two_messages :
  let conversation :=
    mkChat 0 "bob" "alice"
      [mkMessage "bob" "alice" "one" "MSG-1" 10 None;
       mkMessage "bob" "alice" "two" "MSG-2" 20 None] in
  let world strict :=
    mkWorld None strict true 1000 noFaults [] [conversation]
      {["bob" := mkOnlineEntry "s2" "Bob" 900 true]} ∅ [] [] in
  let after strict :=
    snd (Handlers.on_mark_messages_read "alice" "bob" ["MSG-1"; "MSG-2"] (world strict)) in
  map (fun c => map status (messages c)) (chats (after true)) = [[None; None]]
  /\ map (fun c => map status (messages c)) (chats (after false)) = [[Some "read"; None]]
  /\ map payload (outbox (after true)) = [PRead "alice" ["MSG-1"; "MSG-2"] 1000]
  /\ map payload (outbox (after false)) = [PRead "alice" ["MSG-1"; "MSG-2"] 1000].
Proof. vm_compute. repeat split; reflexivity. Qed.
